(** * Apple Music report downloader

    A shallow embedding of [apple_report_downloader.py]: the configuration
    resolver ([Configurator]), the token issuer and API client ([AppleAPI]),
    the report writer ([OuptutDataLayer]) and the command-line entry point.

    Python dictionaries are finite maps with string keys, exceptions are an
    error result, and everything the script reads or changes outside its own
    variables (clock, files, environment, the remote API, the token cache,
    the dictionary objects shared between calls) sits in one explicit
    [State] threaded through a state-and-exception monad. *)

From Stdlib Require Import QArith Qround Qabs Lia Lqa.
From stdpp Require Import gmap strings list fin_maps pretty.

Local Open Scope Z_scope.
Local Open Scope string_scope.
Local Open Scope list_scope.

(** ** Python values and exceptions *)

(** The values a setting or a parsed command-line option can hold. The spec's
    settings are strings and integers; [None] and booleans are the other
    scalars JSON and argparse produce. JSON numbers with a fraction, arrays
    and nested objects are not modelled. *)
Inductive pyval :=
| VNone
| VBool (b : bool)
| VInt (z : Z)
| VStr (s : string).

#[global] Instance pyval_eq_dec : EqDecision pyval.
Proof. solve_decision. Defined.

(** A Python [dict] with string keys. *)
Abbreviation dict := (gmap string pyval).

(** The exception classes the script raises or lets through, with the message
    they were built from. [OSError] stands for the whole family raised by
    [open]; [LibraryError] for what [json], [jwt] and [requests] raise on
    their own. [SystemExit] is what [exit(n)] raises. *)
Inductive exn :=
| KeyError (msg : string)
| TypeError (msg : string)
| ValueError (msg : string)
| RuntimeError (msg : string)
| OSError (msg : string)
| AttributeError (msg : string)
| OverflowError (msg : string)
| LibraryError (msg : string)
| SystemExit (code : Z).

Inductive result (A : Type) :=
| Ok (a : A)
| Raise (e : exn).
Arguments Ok {A} a.
Arguments Raise {A} e.

Definition result_bind {A B} (r : result A) (k : A -> result B) : result B :=
  match r with
  | Ok a => k a
  | Raise e => Raise e
  end.

Notation "'try' x <- r ; k" := (result_bind r (fun x => k))
  (at level 10, x name, r at level 100, k at level 200).

(** ** Strings *)

(** [str.upper()] on ASCII letters, which is all the setting names contain. *)
Definition upper_ascii (c : Ascii.ascii) : Ascii.ascii :=
  let n := Ascii.N_of_ascii c in
  if ((97 <=? n) && (n <=? 122))%N then Ascii.ascii_of_N (n - 32) else c.

Fixpoint upper (s : string) : string :=
  match s with
  | EmptyString => EmptyString
  | String c rest => String (upper_ascii c) (upper rest)
  end.

(** [str(v)], the text an f-string or the [%s] format inserts for [v]. *)
Definition py_str (v : pyval) : string :=
  match v with
  | VNone => "None"
  | VBool true => "True"
  | VBool false => "False"
  | VInt z => pretty z
  | VStr s => s
  end.

(** [v is not False]: identity with the singleton [False]. *)
Definition is_not_False (v : pyval) : bool :=
  match v with
  | VBool false => false
  | _ => true
  end.

(** ** HTTP messages *)

(** The functions of [requests] the client dispatches to. *)
Inductive http_method := DELETE | GET | HEAD | PATCH | POST | PUT.

(** What [requests] puts on the wire: the method, the URL, whether the server
    certificate is verified, and the headers mapping as it stood when the
    request was sent ([None] when no [headers] keyword was passed). *)
Record Request := {
  rq_method : http_method;
  rq_url : string;
  rq_verify : bool;
  rq_headers : option dict
}.

(** The three attributes the script reads from a [requests.Response]. *)
Record Response := {
  status_code : Z;
  resp_headers : list (string * string);
  resp_text : string
}.

Inductive out_event :=
| PrintLine (line : string)
| PrintUsage.

(** ** The state of the process and of what it can observe *)

(** Dictionary objects that outlive one call are addressed by location. *)
Definition loc := nat.

Record State := {
  (** what [time.time()] returns, in seconds: a double, kept as the rational
      it denotes *)
  clock : Q;
  (** contents of the files that can be opened for reading, by path *)
  files : gmap string string;
  (** paths that cannot be opened for writing *)
  unwritable : gset string;
  (** what each open descriptor of the process yields when read to its end,
      by number; a number not listed is not an open descriptor *)
  descriptors : gmap Z string;
  (** [os.environ] *)
  environ : gmap string string;
  (** randomness the next signature will draw *)
  entropy : nat;
  (** the remote end: a response, or the exception [requests] raises *)
  server : Request -> result Response;
  (** the one slot of [lru_cache(1)] around [__generate_jwt_token]: the
      instance it was called on and the token returned *)
  token_cache : option (nat * string);
  (** dictionary objects shared between calls *)
  heap : gmap loc dict;
  (** requests sent so far, oldest first *)
  sent : list Request;
  (** what was printed so far, oldest first *)
  stdout : list out_event
}.

Definition set_files (f : gmap string string) (st : State) : State :=
  {| clock := clock st; files := f; unwritable := unwritable st;
     descriptors := descriptors st;
     environ := environ st; entropy := entropy st; server := server st;
     token_cache := token_cache st; heap := heap st; sent := sent st;
     stdout := stdout st |}.

Definition set_descriptors (d : gmap Z string) (st : State) : State :=
  {| clock := clock st; files := files st; unwritable := unwritable st;
     descriptors := d;
     environ := environ st; entropy := entropy st; server := server st;
     token_cache := token_cache st; heap := heap st; sent := sent st;
     stdout := stdout st |}.

Definition set_entropy (n : nat) (st : State) : State :=
  {| clock := clock st; files := files st; unwritable := unwritable st;
     descriptors := descriptors st;
     environ := environ st; entropy := n; server := server st;
     token_cache := token_cache st; heap := heap st; sent := sent st;
     stdout := stdout st |}.

Definition set_token_cache (c : option (nat * string)) (st : State) : State :=
  {| clock := clock st; files := files st; unwritable := unwritable st;
     descriptors := descriptors st;
     environ := environ st; entropy := entropy st; server := server st;
     token_cache := c; heap := heap st; sent := sent st;
     stdout := stdout st |}.

Definition set_heap (h : gmap loc dict) (st : State) : State :=
  {| clock := clock st; files := files st; unwritable := unwritable st;
     descriptors := descriptors st;
     environ := environ st; entropy := entropy st; server := server st;
     token_cache := token_cache st; heap := h; sent := sent st;
     stdout := stdout st |}.

Definition set_sent (l : list Request) (st : State) : State :=
  {| clock := clock st; files := files st; unwritable := unwritable st;
     descriptors := descriptors st;
     environ := environ st; entropy := entropy st; server := server st;
     token_cache := token_cache st; heap := heap st; sent := l;
     stdout := stdout st |}.

Definition set_stdout (l : list out_event) (st : State) : State :=
  {| clock := clock st; files := files st; unwritable := unwritable st;
     descriptors := descriptors st;
     environ := environ st; entropy := entropy st; server := server st;
     token_cache := token_cache st; heap := heap st; sent := sent st;
     stdout := l |}.

(** State-and-exception monad: a raised exception keeps the state reached,
    as a Python [raise] keeps every mutation made before it. *)
Definition M (A : Type) : Type := State -> result A * State.

Definition ret {A} (a : A) : M A := fun st => (Ok a, st).
Definition raise {A} (e : exn) : M A := fun st => (Raise e, st).
Definition bind {A B} (m : M A) (k : A -> M B) : M B :=
  fun st =>
    match m st with
    | (Ok a, st') => k a st'
    | (Raise e, st') => (Raise e, st')
    end.
Definition lift {A} (r : State -> result A) : M A := fun st => (r st, st).
Definition modify (f : State -> State) : M unit := fun st => (Ok tt, f st).

Notation "'do' x <- m ; k" := (bind m (fun x => k))
  (at level 10, x name, m at level 100, k at level 200).

(** [open(path, "r")] followed by [read()]. *)
Definition read_file (path : string) (st : State) : result string :=
  match files st !! path with
  | Some contents => Ok contents
  | None => Raise (OSError ("No such file or directory: " +:+ path))
  end.

(** [d.update(new)]: the keys of [new] override those of [d]. *)
Definition dict_update (d new : dict) : dict := new ∪ d.

(** ** Configurator *)

Record Configurator := {
  cf_config : dict;
  cf_config_file : option string;
  cf_required_items : list string
}.

Definition builtin_defaults : dict :=
  {[ "api_base_url" := VStr "https://musicanalytics.apple.com";
     "jwt_expire_sec" := VInt 1200 ]}.

Definition required_items : list string :=
  [ "api_base_url"; "issuer_id"; "jwt_expire_sec"; "key_id"; "privkey_path" ].

Definition with_config (c : dict) (self : Configurator) : Configurator :=
  {| cf_config := c; cf_config_file := cf_config_file self;
     cf_required_items := cf_required_items self |}.

Section Resolver.

(** [self.__config.update(json.loads(contents))] as one step on the file's
    text: the members the update adds when the text is a JSON object, or
    the exception [json.loads] or [update] raises. *)
Variable json_members : string -> result dict.

(** [Configurator.__configure_from_file] *)
Definition configure_from_file (self : Configurator) (st : State)
  : result Configurator :=
  match cf_config_file self with
  | Some path =>
      try contents <- read_file path st;
      try members <- json_members contents;
      Ok (with_config (dict_update (cf_config self) members) self)
  | None => Ok self
  end.

(** [Configurator.__configure_from_env]: one pass over the required items,
    in order. Values taken from the environment are strings. *)
Definition configure_from_env (self : Configurator) (st : State)
  : Configurator :=
  foldl (fun (s : Configurator) (item : string) =>
           match environ st !! upper item with
           | Some v => with_config (dict_update (cf_config s) {[ item := VStr v ]}) s
           | None => s
           end)
        self (cf_required_items self).

(** The validation loop of [__configure]: the first required item that is
    not a key of the configuration raises. *)
Fixpoint validate (items : list string) (config : dict) : result unit :=
  match items with
  | [] => Ok tt
  | item :: rest =>
      match config !! item with
      | None => Raise (KeyError ("Missing configuration item: " +:+ item))
      | Some _ => validate rest config
      end
  end.

(** The merging half of [Configurator.__configure]: file, environment,
    then the arguments once more. *)
Definition merge_sources (self : Configurator) (args : dict) (st : State)
  : result Configurator :=
  try self1 <- match cf_config_file self with
               | Some _ => configure_from_file self st
               | None => Ok self
               end;
  let self2 := configure_from_env self1 st in
  Ok (with_config (dict_update (cf_config self2) args) self2).

(** [Configurator.__configure] *)
Definition configure (self : Configurator) (args : dict) (st : State)
  : result Configurator :=
  try self3 <- merge_sources self args st;
  try _ <- validate (cf_required_items self3) (cf_config self3);
  Ok self3.

(** The object [__init__] has built when it calls [__configure]. *)
Definition Configurator_new (config_file : option string) (args : dict)
  : Configurator :=
  {| cf_config := dict_update builtin_defaults args;
     cf_config_file := config_file;
     cf_required_items := required_items |}.

(** [Configurator.__init__] *)
Definition Configurator_init (config_file : option string) (args : dict)
    (st : State) : result Configurator :=
  configure (Configurator_new config_file args) args st.

(** The [configuration] property. *)
Definition configuration (self : Configurator) : dict := cf_config self.

End Resolver.

(** ** AppleAPI *)

(** An instance: the five private attributes [__init__] stores, and the
    identity of the object, which is what [lru_cache] hashes and compares. *)
Record AppleAPI := {
  api_oid : nat;
  api_base_url : pyval;
  jwt_expire_sec : pyval;
  issuer_id : pyval;
  key_id : pyval;
  privkey_path : pyval
}.

(** The keyword parameters of [AppleAPI.__init__]. *)
Definition init_params : gset string :=
  {[ "privkey_path"; "key_id"; "issuer_id"; "jwt_expire_sec"; "api_base_url" ]}.

(** [AppleAPI] called with a dictionary unpacked into keyword arguments: a
    keyword that is no parameter is refused, then a parameter left without a
    value. [oid] is the identity of the new object. *)
Definition AppleAPI_init (oid : nat) (kwargs : dict) : result AppleAPI :=
  if bool_decide (dom kwargs ⊆ init_params) then
    match kwargs !! "privkey_path", kwargs !! "key_id", kwargs !! "issuer_id",
          kwargs !! "jwt_expire_sec", kwargs !! "api_base_url" with
    | Some pk, Some kid, Some iss, Some expire, Some url =>
        Ok {| api_oid := oid; api_base_url := url; jwt_expire_sec := expire;
              issuer_id := iss; key_id := kid; privkey_path := pk |}
    | _, _, _, _, _ =>
        Raise (TypeError "__init__() missing required positional arguments")
    end
  else Raise (TypeError "__init__() got an unexpected keyword argument").

(** The number a value is in arithmetic, if it is one: booleans count as 0
    and 1. *)
Definition as_number (v : pyval) : option Z :=
  match v with
  | VInt z => Some z
  | VBool b => Some (if b then 1 else 0)
  | VStr _ | VNone => None
  end.

(** [type(v).__name__] *)
Definition type_name (v : pyval) : string :=
  match v with
  | VNone => "NoneType"
  | VBool _ => "bool"
  | VInt _ => "int"
  | VStr _ => "str"
  end.

(** *** Floats

    A Python float is an IEEE 754 double. The finite ones are kept as the
    rationals they denote; an operation rounds its exact result to the nearest
    double, ties to even, or overflows to an infinity. *)

Local Open Scope Z_scope.

(** 2 to the power [k], for any integer [k]. *)
Definition two_power (k : Z) : Q :=
  if 0 <=? k then inject_Z (2 ^ k) else / inject_Z (2 ^ (- k)).

(** The binary exponent of a positive rational: the [e] with
    [2^e <= x < 2^(e+1)]. *)
Definition floor_log2 (x : Q) : Z :=
  let k := Z.log2 (Qnum x) - Z.log2 (Zpos (Qden x)) in
  if Qle_bool (two_power k) x then k else k - 1.

(** The nearest integer, the even one of two that are equally near. *)
Definition round_half_even (x : Q) : Z :=
  let f := Qfloor x in
  match (x - inject_Z f ?= 1 # 2)%Q with
  | Lt => f
  | Gt => f + 1
  | Eq => if Z.even f then f else f + 1
  end.

Inductive float :=
| Finite (q : Q)
| Infinity (negative : bool).

(** The double nearest to [x]: 53 significant bits, the spacing never below
    2^-1074 (subnormals), and an infinity once the rounded magnitude reaches
    2^1024. *)
Definition round_double (x : Q) : float :=
  let e := floor_log2 (Qabs x) in
  let q := Z.max (e - 52) (-1074) in
  let y := (inject_Z (round_half_even (x / two_power q)) * two_power q)%Q in
  if Qle_bool (two_power 1024) (Qabs y) then Infinity (negb (Qle_bool 0 x))
  else Finite y.

(** An integer operand of a float operation is converted to the nearest
    double; one beyond the range of doubles is an [OverflowError]. *)
Definition float_of_int (z : Z) : result Q :=
  match round_double (inject_Z z) with
  | Finite b => Ok b
  | Infinity _ => Raise (OverflowError "int too large to convert to float")
  end.

(** [t + v] for a float [t]: a number is converted and added, the sum
    rounded; anything else is a [TypeError]. *)
Definition float_add (t : Q) (v : pyval) : result float :=
  match as_number v with
  | Some z => try b <- float_of_int z; Ok (round_double (t + b))
  | None =>
      Raise (TypeError ("unsupported operand type(s) for +: 'float' and '"
                        +:+ type_name v +:+ "'"))
  end.

(** Truncation toward zero. *)
Definition truncate (x : Q) : Z :=
  if Qle_bool 0 x then Qfloor x else Qceiling x.

(** [int(x)] for a float [x]: truncation toward zero; an infinity has no
    integer. *)
Definition py_int (x : float) : result Z :=
  match x with
  | Finite q => Ok (truncate q)
  | Infinity _ => Raise (OverflowError "cannot convert float infinity to integer")
  end.

(** [open(fd, "r")], [read()] and the [close] that ends the [with] block, for
    a descriptor number: a number that is no C int or is negative is refused;
    an open descriptor is read to its end and closed with the file object. *)
Definition read_descriptor (fd : Z) : M string :=
  fun st =>
    if (fd <? -2147483648) || (2147483647 <? fd)
    then (Raise (OverflowError "Python int too large to convert to C int"), st)
    else if fd <? 0 then (Raise (ValueError "negative file descriptor"), st)
    else
      match descriptors st !! fd with
      | Some contents =>
          (Ok contents, set_descriptors (delete fd (descriptors st)) st)
      | None => (Raise (OSError "Bad file descriptor"), st)
      end.

Local Open Scope string_scope.
Local Open Scope list_scope.

(** [open(path, "r")] and [read()] for a path taken from the settings: a
    string names a file, an integer (or a boolean, which is one) a
    descriptor of the process. *)
Definition read_path (path : pyval) : M string :=
  match path with
  | VStr p => lift (read_file p)
  | VInt fd => read_descriptor fd
  | VBool b => read_descriptor (if b then 1 else 0)
  | VNone =>
      raise (TypeError "expected str, bytes or os.PathLike object, not NoneType")
  end.

(** The dictionary a location holds; a location never written holds the empty
    dictionary it was created as. *)
Definition deref (h : gmap loc dict) (l : loc) : dict := default ∅ (h !! l).

(** The [{}] defaults of the [headers] parameters: one object each, created
    when the method is defined and handed to every call that omits the
    argument. *)
Definition send_http_request_default_headers : loc := 0%nat.
Definition send_signed_http_request_default_headers : loc := 1%nat.

Section Client.

(** [jwt.encode(payload=, key=, algorithm=, headers=)], with the randomness
    an ES256 signature draws: the encoded token, or the exception raised for
    a key or a value it cannot use. *)
Variable jwt_encode : dict -> string -> string -> dict -> nat -> result string.

(** The body of [AppleAPI.__generate_jwt_token], below its decorator. *)
Definition generate_jwt_token_body (self : AppleAPI) : M string :=
  do sum <- lift (fun st => float_add (clock st) (jwt_expire_sec self));
  do expiration <- lift (fun _ => py_int sum);
  let headers : dict :=
    {[ "alg" := VStr "ES256"; "kid" := key_id self; "typ" := VStr "JWT" ]} in
  let payload : dict :=
    {[ "iss" := issuer_id self; "exp" := VInt expiration;
       "aud" := VStr "appstoreconnect-v1" ]} in
  do private_key <- read_path (privkey_path self);
  do nonce <- lift (fun st => Ok (entropy st));
  do _ <- modify (set_entropy (S nonce));
  lift (fun _ => jwt_encode payload private_key "ES256" headers nonce).

(** [functools.lru_cache(1)] around a method without further arguments: the
    key is the instance. A hit returns the stored result and runs nothing; a
    miss runs the body and, when it returns, stores the result in the one
    slot. An exception is not stored and leaves the slot as it was. *)
Definition lru_cache_1 (key : nat) (body : M string) : M string :=
  fun st =>
    let miss :=
      match body st with
      | (Ok tok, st') => (Ok tok, set_token_cache (Some (key, tok)) st')
      | (Raise e, st') => (Raise e, st')
      end in
    match token_cache st with
    | Some (k, tok) => if decide (k = key) then (Ok tok, st) else miss
    | None => miss
    end.

(** [AppleAPI.__generate_jwt_token] *)
Definition generate_jwt_token (self : AppleAPI) : M string :=
  lru_cache_1 (api_oid self) (generate_jwt_token_body self).

(** The keyword arguments [__send_http_request] collects for [requests]. *)
Record request_kwargs := {
  kw_verify : bool;
  kw_body : option string;
  kw_headers : option loc
}.

(** The status code, the headers and the text of a response. *)
Definition response_triple : Type := Z * list (string * string) * string.

(** [requests.delete], [.get], [.head], [.patch], [.post], [.put] called as
    [(url, **request_kwargs)]. None of them has a [body] parameter, so that
    keyword is refused before anything is sent. Otherwise the request goes
    out with the headers dictionary as it stands, and the remote end
    answers or the transport raises. *)
Definition requests_call (method : http_method) (url : string)
    (kw : request_kwargs) : M Response :=
  match kw_body kw with
  | Some _ =>
      raise (TypeError "request() got an unexpected keyword argument 'body'")
  | None =>
      fun st =>
        let rq := {| rq_method := method; rq_url := url;
                     rq_verify := kw_verify kw;
                     rq_headers := deref (heap st) <$> kw_headers kw |} in
        (server st rq, set_sent (sent st ++ [rq]) st)
  end.

(** [AppleAPI.__send_http_request]. [headers] is the object passed, or
    [None] for Python's [None]. *)
Definition send_http_request (verb url : string) (body : option string)
    (headers : option loc) (verify_ssl : bool) : M response_triple :=
  let request_kwargs :=
    {| kw_verify := verify_ssl; kw_body := None; kw_headers := None |} in
  let request_kwargs :=
    match body with
    | Some b => {| kw_verify := kw_verify request_kwargs; kw_body := Some b;
                   kw_headers := kw_headers request_kwargs |}
    | None => request_kwargs
    end in
  let request_kwargs :=
    match headers with
    | Some h => {| kw_verify := kw_verify request_kwargs;
                   kw_body := kw_body request_kwargs; kw_headers := Some h |}
    | None => request_kwargs
    end in
  do r <- (if decide (verb = "delete") then requests_call DELETE url request_kwargs
           else if decide (verb = "get") then requests_call GET url request_kwargs
           else if decide (verb = "head") then requests_call HEAD url request_kwargs
           else if decide (verb = "patch") then requests_call PATCH url request_kwargs
           else if decide (verb = "post") then requests_call POST url request_kwargs
           else if decide (verb = "put") then requests_call PUT url request_kwargs
           else raise (ValueError "Invalid HTTP verb."));
  ret (status_code r, resp_headers r, resp_text r).

(** [headers.update({"Authorization": f"Bearer {token}"})] on the object at
    [l]: the object itself changes, for every holder of a reference. *)
Definition add_bearer (l : loc) (token : string) (st : State) : State :=
  set_heap (<[ l := dict_update (deref (heap st) l)
                      {[ "Authorization" := VStr ("Bearer " +:+ token) ]} ]>
              (heap st)) st.

(** [AppleAPI.__send_signed_http_request]. [headers] is the object passed, or
    [None] for Python's [None]; a call that omits the argument passes
    [send_signed_http_request_default_headers]. *)
Definition send_signed_http_request (self : AppleAPI) (verb url : string)
    (body : option string) (headers : option loc) (verify_ssl : bool)
  : M response_triple :=
  do token <- generate_jwt_token self;
  do _ <- match headers with
          | Some l => modify (add_bearer l token)
          | None =>
              raise (AttributeError "'NoneType' object has no attribute 'update'")
          end;
  do response <- send_http_request verb url body headers verify_ssl;
  ret response.

(** [AppleAPI.request_in_review_report] *)
Definition request_in_review_report (self : AppleAPI) (rptg_day : pyval)
  : M response_triple :=
  let path_part := "/reports/in-review/v1?rptg_date=" +:+ py_str rptg_day in
  let report_url := py_str (api_base_url self) +:+ path_part in
  do response <- send_signed_http_request self "get" report_url None
                   (Some send_signed_http_request_default_headers) true;
  ret response.

End Client.

(** ** OuptutDataLayer *)

(** [OuptutDataLayer.__write_file]: [open(file_name, "w")] and [write]. *)
Definition write_file (file_name content : string) : M unit :=
  fun st =>
    if bool_decide (file_name ∈ unwritable st)
    then (Raise (OSError ("Permission denied: " +:+ file_name)), st)
    else (Ok tt, set_files (<[ file_name := content ]> (files st)) st).

(** [OuptutDataLayer.write_in_review_report] *)
Definition write_in_review_report (rprt_date : pyval) (body : string) : M unit :=
  let file_name := "in-review-" +:+ py_str rprt_date +:+ ".tsv" in
  write_file file_name body.

(** ** Command-line entry point *)

(** What [parser.parse_args()] returns: [--config] is a string with a
    default, [--out] a string or [None], and [--get-in-review] the string
    given, or [None] when the option is absent (it declares no default). *)
Record Namespace := {
  ns_config : string;
  ns_out : option string;
  ns_get_in_review : pyval
}.

(** How the process ends: an exit status, or the traceback of an exception
    nothing caught. *)
Inductive outcome :=
| Exited (status : Z)
| Traceback (e : exn).

(** The state a process starts in: nothing cached, sent or printed yet, and
    the default dictionaries as empty as they were created. *)
Definition process_start (st : State) : State :=
  set_stdout [] (set_sent [] (set_heap ∅ (set_token_cache None st))).

Definition print (line : string) : M unit :=
  modify (fun st => set_stdout (stdout st ++ [PrintLine line]) st).

Definition print_usage : M unit :=
  modify (fun st => set_stdout (stdout st ++ [PrintUsage]) st).

Section Main.

Variable json_members : string -> result dict.
Variable jwt_encode : dict -> string -> string -> dict -> nat -> result string.

(** The identity of the one [AppleAPI] object the script creates. *)
Variable api_object : nat.

(** The block under [if __name__ == "__main__"], after [parse_args]. *)
Definition main_block (args : Namespace) : M unit :=
  let initial_args : dict := ∅ in
  let operation_ct := 0%Z in
  let operation_ct :=
    if is_not_False (ns_get_in_review args) then (operation_ct + 1)%Z
    else operation_ct in
  do _ <- (if (operation_ct >? 1)%Z || (operation_ct <? 1)%Z then
             do _ <- print "Please specify exactly one operation.";
             do _ <- print_usage;
             raise (SystemExit 1)
           else ret tt);
  do configurator <- lift (Configurator_init json_members
                             (Some (ns_config args)) initial_args);
  do api <- lift (fun _ => AppleAPI_init api_object (configuration configurator));
  if is_not_False (ns_get_in_review args) then
    do results <- request_in_review_report jwt_encode api (ns_get_in_review args);
    if (results.1.1 =? 200)%Z then
      write_in_review_report (ns_get_in_review args) results.2
    else
      raise (RuntimeError ("API returned an HTTP " +:+ pretty results.1.1 +:+ "."))
  else ret tt.

(** The process: [SystemExit] sets the exit status, any other exception
    that reaches the top is a traceback, and falling off the end is
    status 0. *)
Definition main (args : Namespace) (st : State) : outcome * State :=
  match main_block args (process_start st) with
  | (Ok _, st') => (Exited 0, st')
  | (Raise (SystemExit code), st') => (Exited code, st')
  | (Raise e, st') => (Traceback e, st')
  end.

End Main.

(** ** Sequences of calls to the token issuer *)

(** The token issuer called once at each of the given moments of one process.
    A moment fixes everything the call can observe (clock, files,
    randomness, ...) except the cache slot, which only the issuer writes
    and which is carried from one call to the next. *)
Fixpoint token_calls
    (jwt_encode : dict -> string -> string -> dict -> nat -> result string)
    (self : AppleAPI) (cache : option (nat * string)) (moments : list State)
  : list (result string) :=
  match moments with
  | [] => []
  | st :: rest =>
      let '(r, st') := generate_jwt_token jwt_encode self (set_token_cache cache st) in
      r :: token_calls jwt_encode self (token_cache st') rest
  end.

(** ** Reading the claims *)

(** The token the cache would hand to a call on [self], if any. *)
Definition cached_for (self : AppleAPI) (st : State) : option string :=
  match token_cache st with
  | Some (k, tok) => if decide (k = api_oid self) then Some tok else None
  | None => None
  end.

(** The members the configuration file contributes: none without a file. *)
Definition file_source (json_members : string -> result dict)
    (config_file : option string) (st : State) : result dict :=
  match config_file with
  | Some path => try contents <- read_file path st; json_members contents
  | None => Ok ∅
  end.

(** The verb strings [__send_http_request] accepts and what each selects. *)
Definition method_of_verb (verb : string) : option http_method :=
  if decide (verb = "delete") then Some DELETE
  else if decide (verb = "get") then Some GET
  else if decide (verb = "head") then Some HEAD
  else if decide (verb = "patch") then Some PATCH
  else if decide (verb = "post") then Some POST
  else if decide (verb = "put") then Some PUT
  else None.

(** A value that is present but holds nothing. *)
Definition is_empty (v : pyval) : bool :=
  match v with
  | VStr s => bool_decide (s = "")
  | VNone => true
  | VBool _ | VInt _ => false
  end.

(** Every required key is present and holds something. *)
Definition all_nonempty (config : dict) : bool :=
  forallb (fun k => match config !! k with
                    | Some v => negb (is_empty v)
                    | None => false
                    end) required_items.

(** ** A concrete deployment, for examples *)

Definition dquote : string := String (Ascii.ascii_of_nat 34) EmptyString.

(** A configuration file naming the issuer, the key and the key file. *)
Definition demo_config_text : string :=
  "{" +:+ dquote +:+ "issuer_id" +:+ dquote +:+ ": " +:+ dquote +:+ "issuer-1" +:+ dquote +:+ ", "
      +:+ dquote +:+ "key_id" +:+ dquote +:+ ": " +:+ dquote +:+ "KEY1" +:+ dquote +:+ ", "
      +:+ dquote +:+ "privkey_path" +:+ dquote +:+ ": " +:+ dquote +:+ "key.p8" +:+ dquote +:+ "}".

(** A JSON reader that knows the two documents the examples use. *)
Definition demo_json (contents : string) : result dict :=
  if decide (contents = demo_config_text) then
    Ok {[ "issuer_id" := VStr "issuer-1"; "key_id" := VStr "KEY1";
          "privkey_path" := VStr "key.p8" ]}
  else if decide (contents = "{}") then Ok ∅
  else Raise (LibraryError "JSONDecodeError").

(** A signer that spells out what it was given, randomness included. *)
Definition demo_jwt (payload : dict) (key algorithm : string) (headers : dict)
    (nonce : nat) : result string :=
  if decide (key = "") then Raise (LibraryError "InvalidKeyError")
  else
    Ok (algorithm +:+ "." +:+ py_str (default VNone (headers !! "kid"))
          +:+ "." +:+ py_str (default VNone (payload !! "iss"))
          +:+ "." +:+ py_str (default VNone (payload !! "exp"))
          +:+ "." +:+ pretty nonce).

Definition demo_report : string := "isrc title 1 2 3".

(** A remote end that has the report of one day only. *)
Definition demo_server (rq : Request) : result Response :=
  if decide (rq_url rq =
             "https://musicanalytics.apple.com/reports/in-review/v1?rptg_date=2022-11-10")
  then Ok {| status_code := 200;
             resp_headers := [("Content-Type", "text/tab-separated-values")];
             resp_text := demo_report |}
  else Ok {| status_code := 404; resp_headers := []; resp_text := "Not Found" |}.

Definition demo_state : State :=
  {| clock := 1668038400 # 1;
     files := {[ "config.json" := demo_config_text; "key.p8" := "PRIVATE KEY" ]};
     unwritable := ∅;
     descriptors := ∅;
     environ := ∅;
     entropy := 7;
     server := demo_server;
     token_cache := None;
     heap := ∅;
     sent := [];
     stdout := [] |}.

Definition demo_api : AppleAPI :=
  {| api_oid := 0; api_base_url := VStr "https://musicanalytics.apple.com";
     jwt_expire_sec := VInt 1200; issuer_id := VStr "issuer-1";
     key_id := VStr "KEY1"; privkey_path := VStr "key.p8" |}.

Definition demo_overrides : dict := {[ "issuer_id" := VStr "override-issuer" ]}.

(** Settings that name everything and say nothing. *)
Definition blank_overrides : dict :=
  {[ "issuer_id" := VStr ""; "key_id" := VStr ""; "privkey_path" := VStr "" ]}.

(** The triple [__send_http_request] builds from a response. *)
Definition triple_of (r : Response) : Z * list (string * string) * string :=
  (status_code r, resp_headers r, resp_text r).

(** A later moment of the demo process: more than the token's lifetime has
    passed, the key file is gone and the randomness has moved on. *)
Definition demo_state_later : State :=
  {| clock := 1668048400 # 1;
     files := {[ "config.json" := demo_config_text ]};
     unwritable := ∅;
     descriptors := ∅;
     environ := ∅;
     entropy := 99;
     server := demo_server;
     token_cache := None;
     heap := ∅;
     sent := [];
     stdout := [] |}.

(** The namespace of a command line with no option at all: every option
    holds its default. *)
Definition no_flags : Namespace :=
  {| ns_config := "config.json"; ns_out := None; ns_get_in_review := VNone |}.

(** The namespace of [--get-in-review DAY]. *)
Definition get_in_review (day : string) : Namespace :=
  {| ns_config := "config.json"; ns_out := None; ns_get_in_review := VStr day |}.

(** A stub API that answers every request with status 200 and one body. *)
Definition stub_200 (rq : Request) : result Response :=
  Ok {| status_code := 200; resp_headers := []; resp_text := demo_report |}.

Definition demo_state_stub : State :=
  {| clock := clock demo_state; files := files demo_state;
     unwritable := unwritable demo_state;
     descriptors := descriptors demo_state; environ := environ demo_state;
     entropy := entropy demo_state; server := stub_200;
     token_cache := None; heap := ∅; sent := []; stdout := [] |}.

Definition demo_token : string := "ES256.KEY1.issuer-1.1668039600.7".

(** Overrides that complete the settings and add a key of their own. *)
Definition stray_overrides : dict :=
  {[ "issuer_id" := VStr "issuer-1"; "key_id" := VStr "KEY1";
     "privkey_path" := VStr "key.p8"; "out" := VStr "report.tsv" ]}.

(** Overrides that complete the settings and nothing more. *)
Definition full_overrides : dict :=
  {[ "issuer_id" := VStr "issuer-1"; "key_id" := VStr "KEY1";
     "privkey_path" := VStr "key.p8" ]}.

(** The demo deployment with a variable in the environment that is none of
    the settings. *)
Definition demo_state_home : State :=
  {| clock := clock demo_state; files := files demo_state;
     unwritable := unwritable demo_state;
     descriptors := descriptors demo_state;
     environ := {[ "HOME" := "/root"; "issuer_id" := "lower-case" ]};
     entropy := entropy demo_state; server := server demo_state;
     token_cache := None; heap := ∅; sent := []; stdout := [] |}.

(** The demo deployment with the token lifetime set in the environment. *)
Definition demo_state_env_lifetime : State :=
  {| clock := clock demo_state; files := files demo_state;
     unwritable := unwritable demo_state;
     descriptors := descriptors demo_state;
     environ := {[ "JWT_EXPIRE_SEC" := "600" ]};
     entropy := entropy demo_state; server := server demo_state;
     token_cache := None; heap := ∅; sent := []; stdout := [] |}.

(** The demo deployment without its configuration file, every setting being
    in the environment instead. *)
Definition demo_state_env_only : State :=
  {| clock := clock demo_state; files := {[ "key.p8" := "PRIVATE KEY" ]};
     unwritable := unwritable demo_state;
     descriptors := descriptors demo_state;
     environ := {[ "ISSUER_ID" := "issuer-1"; "KEY_ID" := "KEY1";
                   "PRIVKEY_PATH" := "key.p8" ]};
     entropy := entropy demo_state; server := server demo_state;
     token_cache := None; heap := ∅; sent := []; stdout := [] |}.

(** The demo deployment with the report of 2022-11-10 write-protected. *)
Definition demo_state_protected : State :=
  {| clock := clock demo_state; files := files demo_state;
     unwritable := {[ "in-review-2022-11-10.tsv" ]};
     descriptors := ∅;
     environ := environ demo_state;
     entropy := entropy demo_state; server := server demo_state;
     token_cache := None; heap := ∅; sent := []; stdout := [] |}.

(** A second client object, with its own key identifier. *)
Definition other_api : AppleAPI :=
  {| api_oid := 1; api_base_url := VStr "https://musicanalytics.apple.com";
     jwt_expire_sec := VInt 1200; issuer_id := VStr "issuer-1";
     key_id := VStr "KEY2"; privkey_path := VStr "key.p8" |}.


(** A client whose token lifetime is beyond the range of doubles. *)
Definition huge_lived_api : AppleAPI :=
  {| api_oid := 0; api_base_url := VStr "https://musicanalytics.apple.com";
     jwt_expire_sec := VInt (10 ^ 400); issuer_id := VStr "issuer-1";
     key_id := VStr "KEY1"; privkey_path := VStr "key.p8" |}.


(** Whether a float is the finite double denoting [q]. *)
Definition is_double (f : float) (q : Q) : bool :=
  match f with
  | Finite y => Qeq_bool y q
  | Infinity _ => false
  end.

(** Whether a float is an infinity. *)
Definition is_infinite (f : float) : bool :=
  match f with
  | Finite _ => false
  | Infinity _ => true
  end.

(** * Properties *)

(** ** Dictionaries *)

Lemma dict_update_lookup (d new : dict) (k : string) :
  dict_update d new !! k =
    match new !! k with
    | Some v => Some v
    | None => d !! k
    end.
Proof.
  unfold dict_update. rewrite lookup_union.
  destruct (new !! k), (d !! k); reflexivity.
Qed.

Lemma dict_update_empty (d : dict) : dict_update d ∅ = d.
Proof. unfold dict_update. apply (left_id_L ∅ (∪)). Qed.

(** ** Configuration resolver *)

Section ResolverProperties.

Variable json_members : string -> result dict.

(** One pass over [items] leaves every other key alone and gives each item
    that the environment names its environment value. *)
Lemma env_pass_lookup (st : State) (items : list string) (self : Configurator)
    (k : string) :
  cf_config
    (foldl (fun (s : Configurator) (item : string) =>
              match environ st !! upper item with
              | Some v => with_config (dict_update (cf_config s) {[ item := VStr v ]}) s
              | None => s
              end) self items) !! k =
    match (if decide (k ∈ items) then environ st !! upper k else None) with
    | Some v => Some (VStr v)
    | None => cf_config self !! k
    end.
Proof.
  revert self. induction items as [|item rest IH]; intros self; simpl.
  - reflexivity.
  - rewrite IH. clear IH.
    destruct (decide (k = item)) as [->|Hne].
    + rewrite (decide_True (P := item ∈ item :: rest)) by apply list_elem_of_here.
      destruct (environ st !! upper item) as [v|] eqn:Henv.
      * simpl. rewrite dict_update_lookup, lookup_singleton_eq.
        destruct (decide (item ∈ rest)); reflexivity.
      * destruct (decide (item ∈ rest)); reflexivity.
    + assert (Hiff : k ∈ item :: rest <-> k ∈ rest).
      { rewrite elem_of_cons. tauto. }
      assert (Hcfg : cf_config
                       match environ st !! upper item with
                       | Some v => with_config (dict_update (cf_config self) {[ item := VStr v ]}) self
                       | None => self
                       end !! k = cf_config self !! k).
      { destruct (environ st !! upper item); [|reflexivity].
        simpl. rewrite dict_update_lookup, lookup_singleton_ne by congruence.
        reflexivity. }
      rewrite Hcfg.
      destruct (decide (k ∈ rest)) as [Hin|Hnin].
      * rewrite decide_True by tauto. reflexivity.
      * rewrite decide_False by tauto. reflexivity.
Qed.

Lemma env_pass_fields (st : State) (items : list string) (self : Configurator) :
  let self' :=
    foldl (fun (s : Configurator) (item : string) =>
             match environ st !! upper item with
             | Some v => with_config (dict_update (cf_config s) {[ item := VStr v ]}) s
             | None => s
             end) self items in
  cf_config_file self' = cf_config_file self /\
  cf_required_items self' = cf_required_items self.
Proof.
  revert self. induction items as [|item rest IH]; intros self; simpl.
  - split; reflexivity.
  - destruct (IH match environ st !! upper item with
                 | Some v => with_config (dict_update (cf_config self) {[ item := VStr v ]}) self
                 | None => self
                 end) as [Hf Hr].
    rewrite Hf, Hr. destruct (environ st !! upper item); split; reflexivity.
Qed.

Lemma configure_from_env_lookup (self : Configurator) (st : State) (k : string) :
  cf_config (configure_from_env self st) !! k =
    match (if decide (k ∈ cf_required_items self) then environ st !! upper k
           else None) with
    | Some v => Some (VStr v)
    | None => cf_config self !! k
    end.
Proof. unfold configure_from_env. apply env_pass_lookup. Qed.

Lemma configure_from_env_required (self : Configurator) (st : State) :
  cf_required_items (configure_from_env self st) = cf_required_items self.
Proof. unfold configure_from_env. apply env_pass_fields. Qed.

(** What the file step yields, in terms of the file source. *)
Lemma file_step (config_file : option string) (args : dict) (st : State)
    (self1 : Configurator) :
  match config_file with
  | Some _ => configure_from_file json_members (Configurator_new config_file args) st
  | None => Ok (Configurator_new config_file args)
  end = Ok self1 ->
  exists file : dict,
    file_source json_members config_file st = Ok file /\
    cf_config self1 = dict_update (dict_update builtin_defaults args) file /\
    cf_required_items self1 = required_items.
Proof.
  unfold configure_from_file, file_source, Configurator_new.
  destruct config_file as [path|]; simpl.
  - destruct (read_file path st) as [contents|e]; simpl; [|discriminate].
    destruct (json_members contents) as [members|e]; simpl; [|discriminate].
    intros [= <-]. exists members. auto.
  - intros [= <-]. exists ∅. simpl. rewrite dict_update_empty. auto.
Qed.

(** The merged mapping, source by source. *)
Lemma merge_sources_lookup (config_file : option string) (args : dict)
    (st : State) (merged : Configurator) :
  merge_sources json_members (Configurator_new config_file args) args st = Ok merged ->
  cf_required_items merged = required_items /\
  exists file : dict,
    file_source json_members config_file st = Ok file /\
    forall k : string,
      k ∈ required_items ->
      cf_config merged !! k =
        match args !! k with
        | Some v => Some v
        | None =>
            match environ st !! upper k with
            | Some s => Some (VStr s)
            | None =>
                match file !! k with
                | Some v => Some v
                | None => builtin_defaults !! k
                end
            end
        end.
Proof.
  unfold merge_sources.
  change (cf_config_file (Configurator_new config_file args)) with config_file.
  destruct (match config_file with
            | Some _ => configure_from_file json_members (Configurator_new config_file args) st
            | None => Ok (Configurator_new config_file args)
            end) as [self1|e] eqn:Hfile; simpl; [|discriminate].
  intros [= <-]. simpl.
  destruct (file_step _ _ _ _ Hfile) as (file & Hsrc & Hcfg & Hreq).
  split.
  - rewrite configure_from_env_required. exact Hreq.
  - exists file. split; [exact Hsrc|].
    intros k Hk. rewrite dict_update_lookup.
    destruct (args !! k) as [v|] eqn:Hargs; [reflexivity|].
    rewrite configure_from_env_lookup, Hreq, decide_True by exact Hk.
    destruct (environ st !! upper k); [reflexivity|].
    rewrite Hcfg, !dict_update_lookup, Hargs. reflexivity.
Qed.

Lemma validate_ok (items : list string) (config : dict) :
  Forall (fun k => is_Some (config !! k)) items -> validate items config = Ok tt.
Proof.
  induction 1 as [|k rest [v Hv] _ IH]; simpl; [reflexivity|].
  rewrite Hv. exact IH.
Qed.

Lemma validate_missing (items : list string) (config : dict) :
  Exists (fun k => config !! k = None) items ->
  exists k : string,
    k ∈ items /\ config !! k = None /\
    validate items config = Raise (KeyError ("Missing configuration item: " +:+ k)).
Proof.
  induction items as [|item rest IH]; intros Hex.
  - inversion Hex.
  - simpl. destruct (config !! item) as [v|] eqn:Hitem.
    + destruct IH as (k & Hin & Hnone & Hval).
      { inversion Hex as [? ? Hhd|? ? Htl]; subst; [congruence|exact Htl]. }
      exists k. split; [apply list_elem_of_further, Hin|]. auto.
    + exists item. split; [apply list_elem_of_here|]. auto.
Qed.

Lemma validate_inv (items : list string) (config : dict) :
  validate items config = Ok tt -> Forall (fun k => is_Some (config !! k)) items.
Proof.
  induction items as [|item rest IH]; simpl; intros Hval; [constructor|].
  destruct (config !! item) as [v|] eqn:Hitem; [|discriminate].
  constructor; [rewrite Hitem; eauto|auto].
Qed.

End ResolverProperties.


Section ResolverClaims.

Variable json_members : string -> result dict.

(** C4. For each of the five required keys, the resolved configuration holds
    the explicit override when the overrides set the key; otherwise the
    environment value (a string, read under the upper-cased name) when the
    environment sets it; otherwise the file's value when the file sets it;
    otherwise the built-in default. *)
Theorem resolution_precedence (config_file : option string) (args : dict)
    (st : State) (self : Configurator) (file : dict) (k : string) :
  Configurator_init json_members config_file args st = Ok self ->
  file_source json_members config_file st = Ok file ->
  k ∈ required_items ->
  configuration self !! k =
    match args !! k with
    | Some v => Some v
    | None =>
        match environ st !! upper k with
        | Some s => Some (VStr s)
        | None =>
            match file !! k with
            | Some v => Some v
            | None => builtin_defaults !! k
            end
        end
    end.
Proof.
  unfold Configurator_init, configure, configuration.
  destruct (merge_sources json_members (Configurator_new config_file args) args st)
    as [merged|e] eqn:Hmerge; simpl; [|discriminate].
  destruct (validate (cf_required_items merged) (cf_config merged));
    simpl; [|discriminate].
  intros [= <-] Hfile Hk.
  destruct (merge_sources_lookup json_members _ _ _ _ Hmerge)
    as (_ & file' & Hfile' & Hlookup).
  rewrite Hfile in Hfile'. injection Hfile' as <-.
  apply Hlookup, Hk.
Qed.

(** C5. Once the sources are merged, resolution succeeds with the merged
    mapping when all five required keys are in it, and otherwise fails with a
    [KeyError] whose message names a required key that is missing. *)
Theorem validation_of_merged (config_file : option string) (args : dict)
    (st : State) (merged : Configurator) :
  merge_sources json_members (Configurator_new config_file args) args st = Ok merged ->
  (Forall (fun k => is_Some (cf_config merged !! k)) required_items ->
   Configurator_init json_members config_file args st = Ok merged) /\
  (Exists (fun k => cf_config merged !! k = None) required_items ->
   exists k : string,
     k ∈ required_items /\ cf_config merged !! k = None /\
     Configurator_init json_members config_file args st =
       Raise (KeyError ("Missing configuration item: " +:+ k))).
Proof.
  intros Hmerge.
  destruct (merge_sources_lookup json_members _ _ _ _ Hmerge) as (Hreq & _).
  unfold Configurator_init, configure. rewrite Hmerge. simpl. rewrite Hreq.
  split.
  - intros Hall. rewrite (validate_ok _ _ Hall). reflexivity.
  - intros Hsome.
    destruct (validate_missing _ _ Hsome) as (k & Hin & Hnone & Hval).
    exists k. rewrite Hval. auto.
Qed.

(** C6, as amended. Every settings mapping that resolution accepts has all
    five required keys; what the keys hold is not looked at. *)
Theorem accepted_settings_present (config_file : option string) (args : dict)
    (st : State) (self : Configurator) :
  Configurator_init json_members config_file args st = Ok self ->
  Forall (fun k => is_Some (configuration self !! k)) required_items.
Proof.
  unfold Configurator_init, configure, configuration.
  destruct (merge_sources json_members (Configurator_new config_file args) args st)
    as [merged|e] eqn:Hmerge; simpl; [|discriminate].
  destruct (merge_sources_lookup json_members _ _ _ _ Hmerge) as (Hreq & _).
  rewrite Hreq.
  destruct (validate required_items (cf_config merged)) as [[]|e] eqn:Hval;
    simpl; [|discriminate].
  intros [= <-]. apply validate_inv, Hval.
Qed.

End ResolverClaims.

(** C4 at work: the file and the overrides both name an issuer, and the
    override is the one resolved. *)
Lemma resolution_precedence_witness :
  exists self : Configurator,
    Configurator_init demo_json (Some "config.json") demo_overrides demo_state = Ok self /\
    configuration self !! "issuer_id" = Some (VStr "override-issuer").
Proof.
  destruct (Configurator_init demo_json (Some "config.json") demo_overrides demo_state)
    as [self|e] eqn:Hinit; [|vm_compute in Hinit; discriminate].
  exists self. split; [reflexivity|].
  rewrite (resolution_precedence demo_json (Some "config.json") demo_overrides
             demo_state self
             {[ "issuer_id" := VStr "issuer-1"; "key_id" := VStr "KEY1";
                "privkey_path" := VStr "key.p8" ]}
             "issuer_id" Hinit).
  - reflexivity.
  - vm_compute. reflexivity.
  - repeat constructor.
Defined.

(** C5 at work, on both sides: the demo file completes the defaults; without
    a file the issuer is the first key found missing. *)
Lemma validation_of_merged_witness :
  (exists merged : Configurator,
     Configurator_init demo_json (Some "config.json") ∅ demo_state = Ok merged) /\
  (exists k : string,
     Configurator_init demo_json None ∅ demo_state =
       Raise (KeyError ("Missing configuration item: " +:+ k))).
Proof.
  split.
  - destruct (merge_sources demo_json (Configurator_new (Some "config.json") ∅) ∅ demo_state)
      as [merged|e] eqn:Hmerge; [|vm_compute in Hmerge; discriminate].
    exists merged.
    apply (validation_of_merged demo_json (Some "config.json") ∅ demo_state merged Hmerge).
    vm_compute in Hmerge. injection Hmerge as <-.
    repeat constructor; vm_compute; eauto.
  - destruct (merge_sources demo_json (Configurator_new None ∅) ∅ demo_state)
      as [merged|e] eqn:Hmerge; [|vm_compute in Hmerge; discriminate].
    destruct (validation_of_merged demo_json None ∅ demo_state merged Hmerge)
      as [_ Hmissing].
    destruct Hmissing as (k & _ & _ & Hraise).
    + vm_compute in Hmerge. injection Hmerge as <-.
      apply Exists_cons_tl, Exists_cons_hd. vm_compute. reflexivity.
    + exists k. exact Hraise.
Defined.

(** C6, as stated, fails: overrides that set the three missing keys to the
    empty string are accepted. *)
Lemma blank_settings_accepted :
  exists self : Configurator,
    Configurator_init demo_json None blank_overrides demo_state = Ok self /\
    all_nonempty (configuration self) = false.
Proof.
  eexists. split; vm_compute; reflexivity.
Qed.

Lemma accepted_settings_present_witness :
  exists self : Configurator,
    Configurator_init demo_json None blank_overrides demo_state = Ok self /\
    Forall (fun k => is_Some (configuration self !! k)) required_items.
Proof.
  destruct (Configurator_init demo_json None blank_overrides demo_state)
    as [self|e] eqn:Hinit; [|vm_compute in Hinit; discriminate].
  exists self. split; [reflexivity|].
  exact (accepted_settings_present demo_json None blank_overrides demo_state self Hinit).
Defined.

(** ** Token issuer *)

(** *** Rounding to a double

    Below 2^53 the doubles are at most one apart and every integer is one, so
    rounding never crosses an integer. *)

Local Open Scope Z_scope.










(** Rounding at work, on values whose doubles are known: one tenth; the
    ties at 2^53 + 1 and 2^53 + 3, which go to the even neighbour; the largest
    double and the first integer that overflows; the tie between zero and the
    smallest subnormal. *)
Lemma round_double_examples :
  is_double (round_double (1 # 10))
            (3602879701896397 # 36028797018963968) = true /\
  is_double (round_double (inject_Z (2 ^ 53 + 1))) (inject_Z (2 ^ 53)) = true /\
  is_double (round_double (inject_Z (2 ^ 53 + 3))) (inject_Z (2 ^ 53 + 4)) = true /\
  is_double (round_double (inject_Z (2 ^ 1024 - 2 ^ 970 - 1)))
            (inject_Z (2 ^ 1024 - 2 ^ 971)) = true /\
  is_infinite (round_double (inject_Z (2 ^ 1024 - 2 ^ 970))) = true /\
  is_double (round_double (/ inject_Z (2 ^ 1075))) 0 = true /\
  is_double (round_double (3 * / inject_Z (2 ^ 1075))) (/ inject_Z (2 ^ 1073)) = true.
Proof. vm_compute. repeat split. Qed.


Local Open Scope string_scope.
Local Open Scope list_scope.

Section IssuerProperties.

Variable jwt_encode : dict -> string -> string -> dict -> nat -> result string.

(** Reading the key changes nothing but the table of descriptors. *)
Lemma read_path_frame (path : pyval) (st : State) :
  snd (read_path path st) =
    set_descriptors (descriptors (snd (read_path path st))) st.
Proof.
  assert (Hfd : forall fd : Z,
             snd (read_descriptor fd st) =
               set_descriptors (descriptors (snd (read_descriptor fd st))) st).
  { intros fd. unfold read_descriptor.
    destruct ((fd <? -2147483648)%Z || (2147483647 <? fd)%Z);
      [destruct st; reflexivity|].
    destruct (fd <? 0)%Z; [destruct st; reflexivity|].
    destruct (descriptors st !! fd); destruct st; reflexivity. }
  destruct path as [|b|fd|p]; simpl; try apply Hfd; destruct st; reflexivity.
Qed.

(** The body, step by step: the lifetime is added and the sum truncated
    first, the key is read next, and only then is anything signed. *)
Lemma generate_jwt_token_body_unfold (self : AppleAPI) (st : State) :
  generate_jwt_token_body jwt_encode self st =
    match float_add (clock st) (jwt_expire_sec self) with
    | Ok sum =>
        match py_int sum with
        | Ok expiration =>
            match read_path (privkey_path self) st with
            | (Ok private_key, st') =>
                (jwt_encode
                   {[ "iss" := issuer_id self; "exp" := VInt expiration;
                      "aud" := VStr "appstoreconnect-v1" ]}
                   private_key "ES256"
                   {[ "alg" := VStr "ES256"; "kid" := key_id self;
                      "typ" := VStr "JWT" ]}
                   (entropy st),
                 set_entropy (S (entropy st)) st')
            | (Raise e, st') => (Raise e, st')
            end
        | Raise e => (Raise e, st)
        end
    | Raise e => (Raise e, st)
    end.
Proof.
  unfold generate_jwt_token_body, bind, lift, modify.
  destruct (float_add (clock st) (jwt_expire_sec self)) as [sum|]; [|reflexivity].
  destruct (py_int sum); [|reflexivity].
  pose proof (read_path_frame (privkey_path self) st) as Hframe.
  destruct (read_path (privkey_path self) st) as [[private_key|e] st'];
    [|reflexivity].
  simpl in Hframe. rewrite Hframe. reflexivity.
Qed.

(** The state the body ends in differs from the one it started in by the
    randomness drawn and a descriptor closed, at most. *)
Lemma generate_jwt_token_body_frame (self : AppleAPI) (st st1 : State)
    (r : result string) :
  generate_jwt_token_body jwt_encode self st = (r, st1) ->
  st1 = set_entropy (entropy st1) (set_descriptors (descriptors st1) st).
Proof.
  rewrite generate_jwt_token_body_unfold.
  destruct (float_add (clock st) (jwt_expire_sec self)) as [sum|].
  - destruct (py_int sum).
    + pose proof (read_path_frame (privkey_path self) st) as Hframe.
      destruct (read_path (privkey_path self) st) as [[private_key|e] st'];
        simpl in Hframe; intros [= _ <-]; rewrite Hframe; destruct st; reflexivity.
    + intros [= _ <-]. destruct st; reflexivity.
  - intros [= _ <-]. destruct st; reflexivity.
Qed.

(** A call whose instance is in the slot runs nothing. *)
Lemma generate_jwt_token_hit (self : AppleAPI) (st : State) (tok : string) :
  cached_for self st = Some tok ->
  generate_jwt_token jwt_encode self st = (Ok tok, st).
Proof.
  unfold cached_for, generate_jwt_token, lru_cache_1.
  destruct (token_cache st) as [[k t]|]; [|discriminate].
  destruct (decide (k = api_oid self)); [|discriminate].
  intros [= ->]. reflexivity.
Qed.

(** Any other call runs the body and stores what it returns. *)
Lemma generate_jwt_token_miss (self : AppleAPI) (st : State) :
  cached_for self st = None ->
  generate_jwt_token jwt_encode self st =
    match generate_jwt_token_body jwt_encode self st with
    | (Ok tok, st') => (Ok tok, set_token_cache (Some (api_oid self, tok)) st')
    | (Raise e, st') => (Raise e, st')
    end.
Proof.
  unfold cached_for, generate_jwt_token, lru_cache_1.
  destruct (token_cache st) as [[k t]|]; [|reflexivity].
  destruct (decide (k = api_oid self)); [discriminate|reflexivity].
Qed.

(** The issuer writes the cache slot, draws randomness and may close the
    descriptor it read the key from; it touches nothing else. *)
Lemma generate_jwt_token_frame (self : AppleAPI) (st st1 : State)
    (r : result string) :
  generate_jwt_token jwt_encode self st = (r, st1) ->
  st1 = set_token_cache (token_cache st1)
          (set_entropy (entropy st1) (set_descriptors (descriptors st1) st)).
Proof.
  destruct (cached_for self st) as [tok|] eqn:Hslot.
  - rewrite (generate_jwt_token_hit _ _ _ Hslot). intros [= _ <-].
    destruct st; reflexivity.
  - rewrite (generate_jwt_token_miss _ _ Hslot).
    destruct (generate_jwt_token_body jwt_encode self st) as [[t|e] st'] eqn:Hbody;
      intros [= _ <-]; rewrite (generate_jwt_token_body_frame _ _ _ _ Hbody);
      destruct st; reflexivity.
Qed.

(** After a call that returned, the slot holds the instance and the token. *)
Lemma generate_jwt_token_stored (self : AppleAPI) (st st1 : State)
    (tok : string) :
  generate_jwt_token jwt_encode self st = (Ok tok, st1) ->
  token_cache st1 = Some (api_oid self, tok).
Proof.
  unfold generate_jwt_token, lru_cache_1.
  destruct (token_cache st) as [[k t]|] eqn:Hslot.
  - destruct (decide (k = api_oid self)) as [->|].
    + intros [= -> <-]. exact Hslot.
    + destruct (generate_jwt_token_body jwt_encode self st) as [[t'|e] st'];
        intros [= <- <-]; reflexivity.
  - destruct (generate_jwt_token_body jwt_encode self st) as [[t'|e] st'];
      intros [= <- <-]; reflexivity.
Qed.

(** With the instance in the slot, every call at every later moment is a
    hit. *)
Lemma token_calls_hit (self : AppleAPI) (tok : string) (moments : list State) :
  token_calls jwt_encode self (Some (api_oid self, tok)) moments =
    replicate (length moments) (Ok tok).
Proof.
  induction moments as [|st rest IH]; simpl; [reflexivity|].
  rewrite (generate_jwt_token_hit self _ tok).
  - simpl. rewrite IH. reflexivity.
  - unfold cached_for. simpl. rewrite decide_True by reflexivity. reflexivity.
Qed.


(** C3. In a sequence of calls on one instance, once the first call has
    returned a token every later call returns, and returns that same token,
    whatever the clock, the files and the randomness have become in
    between. *)
Theorem repeated_calls_same_token (self : AppleAPI)
    (cache : option (nat * string)) (first : State) (later : list State)
    (tok : string) (results : list (result string)) :
  token_calls jwt_encode self cache (first :: later) = Ok tok :: results ->
  length results = length later /\ Forall (fun r => r = Ok tok) results.
Proof.
  simpl.
  destruct (generate_jwt_token jwt_encode self (set_token_cache cache first))
    as [r st1] eqn:Hfirst.
  intros [= -> <-].
  rewrite (generate_jwt_token_stored _ _ _ _ Hfirst), token_calls_hit.
  split; [apply length_replicate|].
  apply Forall_forall. intros r Hr.
  apply elem_of_replicate in Hr as [-> _]. reflexivity.
Qed.

End IssuerProperties.



(** Beyond the range of doubles there is no token at all: the conversion of
    the lifetime raises. *)
Lemma huge_lifetime_overflows :
  fst (generate_jwt_token demo_jwt huge_lived_api demo_state) =
    Raise (OverflowError "int too large to convert to float").
Proof. vm_compute. reflexivity. Qed.

(** C3 at work: the second call comes 10000 seconds after the first, with
    the key file gone, and still returns the first token. *)
Lemma repeated_calls_same_token_witness :
  token_calls demo_jwt demo_api None [demo_state; demo_state_later] =
    [Ok "ES256.KEY1.issuer-1.1668039600.7"; Ok "ES256.KEY1.issuer-1.1668039600.7"] /\
  Forall (fun r => r = Ok "ES256.KEY1.issuer-1.1668039600.7")
         [Ok "ES256.KEY1.issuer-1.1668039600.7"].
Proof.
  assert (Hcalls : token_calls demo_jwt demo_api None [demo_state; demo_state_later] =
                     [Ok "ES256.KEY1.issuer-1.1668039600.7";
                      Ok "ES256.KEY1.issuer-1.1668039600.7"])
    by (vm_compute; reflexivity).
  split; [exact Hcalls|].
  exact (proj2 (repeated_calls_same_token demo_jwt demo_api None demo_state
                  [demo_state_later] _ _ Hcalls)).
Defined.

(** ** API client *)

(** The dispatch on the verb, for a call without a body: a known verb sends
    one request and hands back the answer as a triple, whatever its status
    code; the transport's exception passes through. *)
Lemma send_http_request_no_body (verb url : string) (headers : option loc)
    (verify_ssl : bool) (st : State) :
  send_http_request verb url None headers verify_ssl st =
    match method_of_verb verb with
    | Some method =>
        let rq := {| rq_method := method; rq_url := url; rq_verify := verify_ssl;
                     rq_headers := deref (heap st) <$> headers |} in
        (match server st rq with
         | Ok r => Ok (triple_of r)
         | Raise e => Raise e
         end,
         set_sent (sent st ++ [rq]) st)
    | None => (Raise (ValueError "Invalid HTTP verb."), st)
    end.
Proof.
  unfold send_http_request, method_of_verb, requests_call, bind, ret, raise, triple_of.
  destruct headers as [h|]; simpl;
    repeat (destruct (decide _); [destruct (server st _); reflexivity|]);
    reflexivity.
Qed.

(** With a body, [requests] refuses the keyword and nothing is sent. *)
Lemma send_http_request_body (verb url body : string) (headers : option loc)
    (verify_ssl : bool) (st : State) :
  sent (snd (send_http_request verb url (Some body) headers verify_ssl st)) = sent st /\
  heap (snd (send_http_request verb url (Some body) headers verify_ssl st)) = heap st /\
  files (snd (send_http_request verb url (Some body) headers verify_ssl st)) = files st /\
  unwritable (snd (send_http_request verb url (Some body) headers verify_ssl st)) =
    unwritable st.
Proof.
  unfold send_http_request, requests_call, bind, ret, raise.
  destruct headers as [h|]; simpl;
    repeat (destruct (decide _); [auto|]); auto.
Qed.

Lemma deref_insert (h : gmap loc dict) (l : loc) (d : dict) :
  deref (<[ l := d ]> h) l = d.
Proof. unfold deref. rewrite lookup_insert_eq. reflexivity. Qed.

Section ClientProperties.

Variable jwt_encode : dict -> string -> string -> dict -> nat -> result string.

(** A signed call after the token is in hand: the object at [l] is updated,
    then the plain request runs on the updated state. *)
Lemma send_signed_http_request_unfold (self : AppleAPI) (verb url : string)
    (body : option string) (l : loc) (verify_ssl : bool) (st st1 : State)
    (tok : string) :
  generate_jwt_token jwt_encode self st = (Ok tok, st1) ->
  send_signed_http_request jwt_encode self verb url body (Some l) verify_ssl st =
    send_http_request verb url body (Some l) verify_ssl (add_bearer l tok st1).
Proof.
  intros Htok. unfold send_signed_http_request, bind at 1. rewrite Htok.
  unfold bind at 1, modify. unfold bind, ret.
  destruct (send_http_request verb url body (Some l) verify_ssl (add_bearer l tok st1))
    as [[r|e] st2]; reflexivity.
Qed.

(** Handed Python's [None] for the headers, the call stops at [update]. *)
Lemma send_signed_http_request_no_headers (self : AppleAPI) (verb url : string)
    (body : option string) (verify_ssl : bool) (st st1 : State) (tok : string) :
  generate_jwt_token jwt_encode self st = (Ok tok, st1) ->
  send_signed_http_request jwt_encode self verb url body None verify_ssl st =
    (Raise (AttributeError "'NoneType' object has no attribute 'update'"), st1).
Proof.
  intros Htok. unfold send_signed_http_request, bind at 1. rewrite Htok.
  reflexivity.
Qed.

(** Without a token the call stops before it touches the headers. *)
Lemma send_signed_http_request_no_token (self : AppleAPI) (verb url : string)
    (body : option string) (headers : option loc) (verify_ssl : bool)
    (st st1 : State) (e : exn) :
  generate_jwt_token jwt_encode self st = (Raise e, st1) ->
  send_signed_http_request jwt_encode self verb url body headers verify_ssl st =
    (Raise e, st1).
Proof.
  intros Htok. unfold send_signed_http_request, bind at 1. rewrite Htok.
  reflexivity.
Qed.

(** A signed call leaves the disk alone. *)
Lemma send_signed_http_request_disk (self : AppleAPI) (verb url : string)
    (body : option string) (headers : option loc) (verify_ssl : bool)
    (st : State) :
  let after :=
    snd (send_signed_http_request jwt_encode self verb url body headers
           verify_ssl st) in
  files after = files st /\ unwritable after = unwritable st.
Proof.
  cbv zeta.
  destruct (generate_jwt_token jwt_encode self st) as [[tok|e] st1] eqn:Htok.
  - pose proof (generate_jwt_token_frame _ _ _ _ _ Htok) as Hframe.
    assert (Hdisk : files st1 = files st /\ unwritable st1 = unwritable st)
      by (rewrite Hframe; split; reflexivity).
    destruct headers as [l|].
    + rewrite (send_signed_http_request_unfold _ _ _ _ _ _ _ _ _ Htok).
      destruct body as [b|].
      * destruct (send_http_request_body verb url b (Some l) verify_ssl
                    (add_bearer l tok st1)) as (_ & _ & -> & ->). exact Hdisk.
      * rewrite send_http_request_no_body.
        destruct (method_of_verb verb); exact Hdisk.
    + rewrite (send_signed_http_request_no_headers _ _ _ _ _ _ _ _ Htok).
      exact Hdisk.
  - pose proof (generate_jwt_token_frame _ _ _ _ _ Htok) as Hframe.
    rewrite (send_signed_http_request_no_token _ _ _ _ _ _ _ _ _ Htok).
    rewrite Hframe. split; reflexivity.
Qed.

(** C1. Requesting the in-review report for the date [d], once the issuer has
    handed over its token, sends exactly one request: a GET to the configured
    base URL followed by [/reports/in-review/v1?rptg_date=] and [d], with
    certificate verification on and an [Authorization] header holding
    [Bearer ] and the token. What the remote end answers comes back as the
    triple of its status code, headers and text. *)
Theorem in_review_request (self : AppleAPI) (d : string) (st st1 : State)
    (tok : string) :
  generate_jwt_token jwt_encode self st = (Ok tok, st1) ->
  let sent_headers :=
    dict_update (deref (heap st) send_signed_http_request_default_headers)
                {[ "Authorization" := VStr ("Bearer " +:+ tok) ]} in
  let rq := {| rq_method := GET;
               rq_url := py_str (api_base_url self)
                         +:+ "/reports/in-review/v1?rptg_date=" +:+ d;
               rq_verify := true;
               rq_headers := Some sent_headers |} in
  let run := request_in_review_report jwt_encode self (VStr d) st in
  sent_headers !! "Authorization" = Some (VStr ("Bearer " +:+ tok)) /\
  sent (snd run) = sent st ++ [rq] /\
  fst run = match server st rq with
            | Ok r => Ok (status_code r, resp_headers r, resp_text r)
            | Raise e => Raise e
            end.
Proof.
  intros Htok sent_headers rq run.
  pose proof (generate_jwt_token_frame _ _ _ _ _ Htok) as Hframe.
  assert (Hheap : heap st1 = heap st) by (rewrite Hframe; reflexivity).
  assert (Hsent : sent st1 = sent st) by (rewrite Hframe; reflexivity).
  assert (Hserver : server st1 = server st) by (rewrite Hframe; reflexivity).
  split.
  { unfold sent_headers. rewrite dict_update_lookup, lookup_singleton_eq.
    reflexivity. }
  assert (Hrun : run =
            (match server st rq with
             | Ok r => Ok (triple_of r)
             | Raise e => Raise e
             end,
             set_sent (sent st ++ [rq])
               (add_bearer send_signed_http_request_default_headers tok st1))).
  { unfold run, request_in_review_report, bind at 1.
    rewrite (send_signed_http_request_unfold _ _ _ _ _ _ _ _ _ Htok),
      send_http_request_no_body.
    change (method_of_verb "get") with (Some GET). cbv zeta.
    unfold add_bearer at 1 2 3 4. simpl heap. simpl sent. simpl server.
    simpl fmap. rewrite deref_insert, Hheap, Hsent, Hserver.
    fold sent_headers. fold rq.
    unfold ret. destruct (server st rq); reflexivity. }
  rewrite Hrun. split; reflexivity.
Qed.

(** C8. A response is handed back as its triple whatever its status code:
    nothing on the way from the remote end to the caller looks at the code,
    so a 404 or a 500 returns exactly as a 200 does. *)
Theorem status_code_not_raised (self : AppleAPI) (verb url : string)
    (method : http_method) (l : loc) (verify_ssl : bool) (st st1 : State)
    (tok : string) (r : Response) :
  generate_jwt_token jwt_encode self st = (Ok tok, st1) ->
  method_of_verb verb = Some method ->
  server st {| rq_method := method; rq_url := url; rq_verify := verify_ssl;
               rq_headers :=
                 Some (dict_update (deref (heap st) l)
                         {[ "Authorization" := VStr ("Bearer " +:+ tok) ]}) |} = Ok r ->
  fst (send_signed_http_request jwt_encode self verb url None (Some l) verify_ssl st) =
    Ok (status_code r, resp_headers r, resp_text r).
Proof.
  intros Htok Hverb Hanswer.
  pose proof (generate_jwt_token_frame _ _ _ _ _ Htok) as Hframe.
  assert (Hheap : heap st1 = heap st) by (rewrite Hframe; reflexivity).
  assert (Hserver : server st1 = server st) by (rewrite Hframe; reflexivity).
  rewrite (send_signed_http_request_unfold _ _ _ _ _ _ _ _ _ Htok),
    send_http_request_no_body, Hverb.
  cbv zeta. unfold add_bearer. simpl heap. simpl server. simpl fmap.
  rewrite deref_insert, Hheap, Hserver, Hanswer. reflexivity.
Qed.

(** C10. A signed call that has its token updates the caller's headers
    object itself: after the call the object at [l] holds the
    [Authorization] entry on top of what it held, no other object has
    changed, and every request the call sent carried the updated object.
    A call that omits the argument, as the report request does, works on the
    one default object, which therefore keeps the entry for the next call. *)
Theorem headers_mutated_in_place (self : AppleAPI) (verb url : string)
    (body : option string) (l : loc) (verify_ssl : bool) (rptg_day : pyval)
    (st st1 : State) (tok : string) :
  generate_jwt_token jwt_encode self st = (Ok tok, st1) ->
  let bearer : dict := {[ "Authorization" := VStr ("Bearer " +:+ tok) ]} in
  let after :=
    snd (send_signed_http_request jwt_encode self verb url body (Some l)
           verify_ssl st) in
  (heap after = <[ l := dict_update (deref (heap st) l) bearer ]> (heap st) /\
   exists new : list Request,
     sent after = sent st ++ new /\
     Forall (fun rq => rq_headers rq = Some (dict_update (deref (heap st) l) bearer))
            new) /\
  heap (snd (request_in_review_report jwt_encode self rptg_day st)) =
    <[ send_signed_http_request_default_headers :=
         dict_update (deref (heap st) send_signed_http_request_default_headers) bearer ]>
      (heap st).
Proof.
  intros Htok bearer after.
  pose proof (generate_jwt_token_frame _ _ _ _ _ Htok) as Hframe.
  assert (Hheap : heap st1 = heap st) by (rewrite Hframe; reflexivity).
  assert (Hsent : sent st1 = sent st) by (rewrite Hframe; reflexivity).
  assert (Hgeneral : forall (verb' url' : string) (body' : option string) (l' : loc)
                              (verify' : bool),
    let after' :=
      snd (send_signed_http_request jwt_encode self verb' url' body' (Some l')
             verify' st) in
    heap after' = <[ l' := dict_update (deref (heap st) l') bearer ]> (heap st) /\
    exists new : list Request,
      sent after' = sent st ++ new /\
      Forall (fun rq => rq_headers rq = Some (dict_update (deref (heap st) l') bearer))
             new).
  { intros verb' url' body' l' verify' after'. unfold after'.
    rewrite (send_signed_http_request_unfold _ _ _ _ _ _ _ _ _ Htok).
    destruct body' as [b|].
    - destruct (send_http_request_body verb' url' b (Some l') verify'
                  (add_bearer l' tok st1)) as (-> & -> & _).
      unfold add_bearer. simpl. rewrite Hheap, Hsent.
      split; [reflexivity|]. exists []. rewrite app_nil_r. auto.
    - rewrite send_http_request_no_body.
      destruct (method_of_verb verb') as [method|]; cbv zeta;
        unfold add_bearer; simpl; rewrite ?deref_insert, Hheap, Hsent.
      + split; [reflexivity|]. eexists. split; [reflexivity|].
        constructor; [reflexivity|constructor].
      + split; [reflexivity|]. exists []. rewrite app_nil_r. auto. }
  split; [apply Hgeneral|].
  unfold request_in_review_report, bind.
  destruct (Hgeneral "get"
              (py_str (api_base_url self) +:+ "/reports/in-review/v1?rptg_date="
               +:+ py_str rptg_day)
              None send_signed_http_request_default_headers true) as [Hh _].
  destruct (send_signed_http_request jwt_encode self "get" _ None
              (Some send_signed_http_request_default_headers) true st)
    as [[r|e] st2]; exact Hh.
Qed.

End ClientProperties.

(** C1 at work: the report of 2022-11-10 in the demo deployment. *)
Lemma in_review_request_witness :
  let run := request_in_review_report demo_jwt demo_api (VStr "2022-11-10") demo_state in
  sent (snd run) =
    [ {| rq_method := GET;
         rq_url := "https://musicanalytics.apple.com/reports/in-review/v1?rptg_date=2022-11-10";
         rq_verify := true;
         rq_headers := Some {[ "Authorization" := VStr ("Bearer " +:+ demo_token) ]} |} ] /\
  fst run = Ok (200, [("Content-Type", "text/tab-separated-values")], demo_report).
Proof.
  destruct (in_review_request demo_jwt demo_api "2022-11-10" demo_state
              (snd (generate_jwt_token demo_jwt demo_api demo_state)) demo_token)
    as (_ & Hsent & Hresult).
  - vm_compute. reflexivity.
  - cbv zeta. rewrite Hsent, Hresult. split; vm_compute; reflexivity.
Defined.

(** C8 at work: the demo server has no report for 1999-01-01 and answers
    404; the client returns the answer. *)
Lemma status_code_not_raised_witness :
  fst (send_signed_http_request demo_jwt demo_api "get"
         "https://musicanalytics.apple.com/reports/in-review/v1?rptg_date=1999-01-01"
         None (Some send_signed_http_request_default_headers) true demo_state) =
    Ok (404, [], "Not Found").
Proof.
  apply (status_code_not_raised demo_jwt demo_api "get" _ GET _ true demo_state
           (snd (generate_jwt_token demo_jwt demo_api demo_state)) demo_token
           {| status_code := 404; resp_headers := []; resp_text := "Not Found" |}).
  - vm_compute. reflexivity.
  - reflexivity.
  - vm_compute. reflexivity.
Defined.

(** C10 at work: a report request leaves the entry in the default object,
    where the next call that omits the argument finds it. *)
Lemma headers_mutated_in_place_witness :
  heap (snd (request_in_review_report demo_jwt demo_api (VStr "2022-11-10") demo_state))
    !! send_signed_http_request_default_headers =
    Some {[ "Authorization" := VStr ("Bearer " +:+ demo_token) ]}.
Proof.
  destruct (headers_mutated_in_place demo_jwt demo_api "get" "" None
              send_signed_http_request_default_headers true (VStr "2022-11-10")
              demo_state (snd (generate_jwt_token demo_jwt demo_api demo_state))
              demo_token) as (_ & Hheap).
  - vm_compute. reflexivity.
  - rewrite Hheap. vm_compute. reflexivity.
Defined.

(** ** Entry point *)

Section MainProperties.

Variable json_members : string -> result dict.
Variable jwt_encode : dict -> string -> string -> dict -> nat -> result string.
Variable api_object : nat.

Lemma request_in_review_report_disk (self : AppleAPI) (rptg_day : pyval)
    (st : State) :
  let after := snd (request_in_review_report jwt_encode self rptg_day st) in
  files after = files st /\ unwritable after = unwritable st.
Proof.
  cbv zeta. unfold request_in_review_report, bind.
  pose proof (send_signed_http_request_disk jwt_encode self "get"
                (py_str (api_base_url self) +:+ "/reports/in-review/v1?rptg_date="
                 +:+ py_str rptg_day)
                None (Some send_signed_http_request_default_headers) true st) as Hdisk.
  cbv zeta in Hdisk.
  destruct (send_signed_http_request jwt_encode self "get" _ None
              (Some send_signed_http_request_default_headers) true st)
    as [[r|e] st2]; exact Hdisk.
Qed.

(** Whatever [--get-in-review] holds, short of the constant [False], counts
    as one operation: the usage branch is skipped and the run goes on to
    the configuration, the client and the request. *)
Lemma main_block_one_operation (args : Namespace) (st : State) :
  is_not_False (ns_get_in_review args) = true ->
  main_block json_members jwt_encode api_object args st =
    match Configurator_init json_members (Some (ns_config args)) ∅ st with
    | Ok configurator =>
        match AppleAPI_init api_object (configuration configurator) with
        | Ok api =>
            match request_in_review_report jwt_encode api (ns_get_in_review args) st with
            | (Ok results, st2) =>
                if (results.1.1 =? 200)%Z then
                  write_in_review_report (ns_get_in_review args) results.2 st2
                else
                  (Raise (RuntimeError ("API returned an HTTP "
                                        +:+ pretty results.1.1 +:+ ".")), st2)
            | (Raise e, st2) => (Raise e, st2)
            end
        | Raise e => (Raise e, st)
        end
    | Raise e => (Raise e, st)
    end.
Proof.
  intros Hop. unfold main_block. rewrite Hop. simpl.
  unfold bind at 1, ret at 1. unfold bind at 1, lift at 1.
  destruct (Configurator_init json_members (Some (ns_config args)) ∅ st)
    as [configurator|e]; [|reflexivity].
  unfold bind at 1, lift at 1.
  destruct (AppleAPI_init api_object (configuration configurator)) as [api|e];
    [|reflexivity].
  unfold bind at 1.
  destruct (request_in_review_report jwt_encode api (ns_get_in_review args) st)
    as [[results|e] st2]; [|reflexivity].
  destruct (results.1.1 =? 200)%Z; reflexivity.
Qed.

(** The usage branch itself works: had the option held [False], the run
    would print the two messages and exit with status 1 before any request.
    argparse never produces that value for a string option without default. *)
Lemma usage_exit_on_False (args : Namespace) (st : State) :
  ns_get_in_review args = VBool false ->
  main json_members jwt_encode api_object args st =
    (Exited 1,
     set_stdout [PrintLine "Please specify exactly one operation."; PrintUsage]
       (process_start st)).
Proof.
  intros Hflag. unfold main, main_block. rewrite Hflag. reflexivity.
Qed.


End MainProperties.


(** C7, where the code departs from it. A command line without
    [--get-in-review] leaves the option at [None], and [None is not False]
    holds, so the operation count is 1: no usage message, no exit with
    status 1. The run requests the report of the day [None]; before a stub
    that answers 200 it even writes [in-review-None.tsv] and ends with
    status 0. *)
Theorem no_flag_run_reaches_api :
  (let run := main demo_json demo_jwt 0 no_flags demo_state in
   fst run = Traceback (RuntimeError "API returned an HTTP 404.") /\
   stdout (snd run) = [] /\
   map rq_url (sent (snd run)) =
     ["https://musicanalytics.apple.com/reports/in-review/v1?rptg_date=None"]) /\
  (let run := main demo_json demo_jwt 0 no_flags demo_state_stub in
   fst run = Exited 0 /\
   stdout (snd run) = [] /\
   map rq_url (sent (snd run)) =
     ["https://musicanalytics.apple.com/reports/in-review/v1?rptg_date=None"] /\
   files (snd run) !! "in-review-None.tsv" = Some demo_report).
Proof.
  split; vm_compute; repeat split; reflexivity.
Qed.

(** * Further properties *)

(** ** Configuration resolver, beyond the required keys *)

Lemma init_params_required (k : string) : k ∈ init_params <-> k ∈ required_items.
Proof.
  unfold init_params, required_items.
  rewrite !elem_of_union, !elem_of_singleton, !elem_of_cons, elem_of_nil.
  tauto.
Qed.

Lemma builtin_defaults_required (k : string) :
  is_Some (builtin_defaults !! k) -> k ∈ required_items.
Proof.
  unfold builtin_defaults, required_items. intros [v Hv].
  apply lookup_insert_Some in Hv as [[<- _]|[_ Hv]].
  - apply list_elem_of_here.
  - apply lookup_singleton_Some in Hv as [<- _].
    do 2 apply list_elem_of_further. apply list_elem_of_here.
Qed.

Section ResolverFurther.

Variable json_members : string -> result dict.

(** The merged mapping at any key: the environment is consulted for the
    required items only. *)
Lemma merge_sources_lookup_any (config_file : option string) (args : dict)
    (st : State) (merged : Configurator) :
  merge_sources json_members (Configurator_new config_file args) args st = Ok merged ->
  exists file : dict,
    file_source json_members config_file st = Ok file /\
    forall k : string,
      cf_config merged !! k =
        match args !! k with
        | Some v => Some v
        | None =>
            match (if decide (k ∈ required_items) then environ st !! upper k
                   else None) with
            | Some s => Some (VStr s)
            | None =>
                match file !! k with
                | Some v => Some v
                | None => builtin_defaults !! k
                end
            end
        end.
Proof.
  unfold merge_sources.
  change (cf_config_file (Configurator_new config_file args)) with config_file.
  destruct (match config_file with
            | Some _ => configure_from_file json_members (Configurator_new config_file args) st
            | None => Ok (Configurator_new config_file args)
            end) as [self1|e] eqn:Hfile; simpl; [|discriminate].
  intros [= <-]. simpl.
  destruct (file_step json_members _ _ _ _ Hfile) as (file & Hsrc & Hcfg & Hreq).
  exists file. split; [exact Hsrc|].
  intros k. rewrite dict_update_lookup.
  destruct (args !! k) as [v|] eqn:Hargs; [reflexivity|].
  rewrite (configure_from_env_lookup json_members), Hreq.
  destruct (if decide (k ∈ required_items) then environ st !! upper k else None);
    [reflexivity|].
  rewrite Hcfg, !dict_update_lookup, Hargs. reflexivity.
Qed.

(** What resolution accepts is the merged mapping, validated. *)
Lemma Configurator_init_accepts (config_file : option string) (args : dict)
    (st : State) (self : Configurator) :
  Configurator_init json_members config_file args st = Ok self ->
  merge_sources json_members (Configurator_new config_file args) args st = Ok self /\
  validate required_items (cf_config self) = Ok tt.
Proof.
  unfold Configurator_init, configure.
  destruct (merge_sources json_members (Configurator_new config_file args) args st)
    as [merged|e] eqn:Hmerge; simpl; [|discriminate].
  destruct (merge_sources_lookup json_members _ _ _ _ Hmerge) as (Hreq & _).
  rewrite Hreq.
  destruct (validate required_items (cf_config merged)) as [[]|e] eqn:Hval;
    simpl; [|discriminate].
  intros [= <-]. auto.
Qed.

(** What resolution rejects after a successful merge is what the validation
    loop raised. *)
Lemma Configurator_init_rejects (config_file : option string) (args : dict)
    (st : State) (merged : Configurator) (e : exn) :
  merge_sources json_members (Configurator_new config_file args) args st = Ok merged ->
  Configurator_init json_members config_file args st = Raise e ->
  validate required_items (cf_config merged) = Raise e.
Proof.
  intros Hmerge. unfold Configurator_init, configure. rewrite Hmerge.
  destruct (merge_sources_lookup json_members _ _ _ _ Hmerge) as (Hreq & _).
  cbn [result_bind]. rewrite Hreq.
  destruct (validate required_items (cf_config merged)) as [[]|e'];
    cbn [result_bind]; [discriminate|]. intros [= <-]. reflexivity.
Qed.

(** The loop stops at the first item that is missing. *)
Lemma validate_raise_inv (items : list string) (config : dict) (e : exn) :
  validate items config = Raise e ->
  exists (before : list string) (k : string) (after : list string),
    items = before ++ k :: after /\
    Forall (fun i => is_Some (config !! i)) before /\
    config !! k = None /\
    e = KeyError ("Missing configuration item: " +:+ k).
Proof.
  induction items as [|item rest IH]; simpl; [discriminate|].
  destruct (config !! item) as [v|] eqn:Hitem.
  - intros Hrest. destruct (IH Hrest) as (before & k & after & -> & Hall & Hk & ->).
    exists (item :: before), k, after.
    split; [reflexivity|].
    split; [constructor; [rewrite Hitem; eauto|exact Hall]|]. auto.
  - intros [= <-]. exists [], item, rest. repeat split; auto.
Qed.

(** One pass over [items] only looks at the upper-cased items. *)
Lemma env_pass_ext (st st' : State) (items : list string) (self : Configurator) :
  (forall k : string, k ∈ items -> environ st !! upper k = environ st' !! upper k) ->
  foldl (fun (s : Configurator) (item : string) =>
           match environ st !! upper item with
           | Some v => with_config (dict_update (cf_config s) {[ item := VStr v ]}) s
           | None => s
           end) self items =
  foldl (fun (s : Configurator) (item : string) =>
           match environ st' !! upper item with
           | Some v => with_config (dict_update (cf_config s) {[ item := VStr v ]}) s
           | None => s
           end) self items.
Proof.
  revert self. induction items as [|item rest IH]; intros self Hagree; simpl;
    [reflexivity|].
  rewrite <- (Hagree item) by apply list_elem_of_here.
  apply IH. intros k Hk. apply Hagree, list_elem_of_further, Hk.
Qed.

(** X1 (resolver). When the merge goes through and resolution still fails,
    the error names the first of the five items, in the order api_base_url,
    issuer_id, jwt_expire_sec, key_id, privkey_path, that the merged mapping
    lacks: every item before it is present. *)
Theorem first_missing_item_reported (config_file : option string) (args : dict)
    (st : State) (merged : Configurator) (e : exn) :
  merge_sources json_members (Configurator_new config_file args) args st = Ok merged ->
  Configurator_init json_members config_file args st = Raise e ->
  exists (before : list string) (k : string) (after : list string),
    required_items = before ++ k :: after /\
    Forall (fun i => is_Some (cf_config merged !! i)) before /\
    cf_config merged !! k = None /\
    e = KeyError ("Missing configuration item: " +:+ k).
Proof.
  intros Hmerge Hinit.
  apply validate_raise_inv, (Configurator_init_rejects _ _ _ _ _ Hmerge Hinit).
Qed.

(** X2 (resolver). The two settings with a built-in default survive every
    merge, so the only items resolution can report missing are issuer_id,
    key_id and privkey_path. *)
Theorem only_undefaulted_items_missing (config_file : option string) (args : dict)
    (st : State) (merged : Configurator) (e : exn) :
  merge_sources json_members (Configurator_new config_file args) args st = Ok merged ->
  Configurator_init json_members config_file args st = Raise e ->
  is_Some (cf_config merged !! "api_base_url") /\
  is_Some (cf_config merged !! "jwt_expire_sec") /\
  exists k : string,
    k ∈ ["issuer_id"; "key_id"; "privkey_path"] /\
    cf_config merged !! k = None /\
    e = KeyError ("Missing configuration item: " +:+ k).
Proof.
  intros Hmerge Hinit.
  destruct (merge_sources_lookup_any _ _ _ _ Hmerge) as (file & _ & Hlookup).
  assert (Hdefault : forall k : string,
             is_Some (builtin_defaults !! k) -> is_Some (cf_config merged !! k)).
  { intros k [d Hd]. rewrite Hlookup, Hd.
    destruct (args !! k); [eauto|].
    destruct (if decide (k ∈ required_items) then environ st !! upper k else None);
      [eauto|].
    destruct (file !! k); eauto. }
  assert (Hurl : is_Some (cf_config merged !! "api_base_url"))
    by (apply Hdefault; vm_compute; eauto).
  assert (Hsec : is_Some (cf_config merged !! "jwt_expire_sec"))
    by (apply Hdefault; vm_compute; eauto).
  split; [exact Hurl|]. split; [exact Hsec|].
  destruct (validate_raise_inv _ _ _ (Configurator_init_rejects _ _ _ _ _ Hmerge Hinit))
    as (before & k & after & Hitems & _ & Hk & ->).
  exists k. split; [|auto].
  assert (Hin : k ∈ required_items).
  { rewrite Hitems. apply elem_of_app. right. apply list_elem_of_here. }
  unfold required_items in Hin.
  rewrite !elem_of_cons, elem_of_nil in Hin.
  rewrite !elem_of_cons, elem_of_nil.
  destruct Hin as [->|[->|[->|[->|[->|[]]]]]]; auto.
  - rewrite Hk in Hurl. destruct Hurl as [? [=]].
  - rewrite Hk in Hsec. destruct Hsec as [? [=]].
Qed.

(** X3 (resolver). For a key that is none of the five, the environment is
    never consulted: the accepted configuration holds the override when there
    is one, otherwise what the file holds, otherwise nothing. *)
Theorem other_keys_bypass_environment (config_file : option string)
    (args : dict) (st : State) (self : Configurator) (file : dict) (k : string) :
  Configurator_init json_members config_file args st = Ok self ->
  file_source json_members config_file st = Ok file ->
  k ∉ required_items ->
  configuration self !! k =
    match args !! k with
    | Some v => Some v
    | None => file !! k
    end.
Proof.
  intros Hinit Hfile Hk.
  destruct (Configurator_init_accepts _ _ _ _ Hinit) as [Hmerge _].
  destruct (merge_sources_lookup_any _ _ _ _ Hmerge) as (file' & Hfile' & Hlookup).
  rewrite Hfile in Hfile'. injection Hfile' as <-.
  unfold configuration. rewrite Hlookup, decide_False by exact Hk.
  destruct (args !! k); [reflexivity|].
  destruct (file !! k); [reflexivity|].
  destruct (builtin_defaults !! k) as [d|] eqn:Hd; [|reflexivity].
  exfalso. apply Hk, builtin_defaults_required. eauto.
Qed.

(** X4 (resolver into client). A key that is none of the five, set by the
    overrides or by the file, stays in the accepted configuration, and the
    client cannot be built from it: unpacking the configuration into
    [AppleAPI] raises a [TypeError]. *)
Theorem stray_key_breaks_client (config_file : option string) (args : dict)
    (st : State) (self : Configurator) (file : dict) (k : string) (oid : nat) :
  Configurator_init json_members config_file args st = Ok self ->
  file_source json_members config_file st = Ok file ->
  k ∉ required_items ->
  is_Some (args !! k) \/ is_Some (file !! k) ->
  exists msg : string,
    AppleAPI_init oid (configuration self) = Raise (TypeError msg).
Proof.
  intros Hinit Hfile Hk Hset.
  destruct (Configurator_init_accepts _ _ _ _ Hinit) as [Hmerge _].
  destruct (merge_sources_lookup_any _ _ _ _ Hmerge) as (file' & Hfile' & Hlookup).
  rewrite Hfile in Hfile'. injection Hfile' as <-.
  assert (Hkept : is_Some (configuration self !! k)).
  { unfold configuration. rewrite Hlookup, decide_False by exact Hk.
    destruct (args !! k); [eauto|].
    destruct Hset as [[? [=]]|[v ->]]. eauto. }
  unfold AppleAPI_init. rewrite bool_decide_eq_false_2; [eauto|].
  intros Hsub. apply Hk, init_params_required, Hsub, elem_of_dom, Hkept.
Qed.

(** X5 (resolver into client). When the overrides and the file set no key
    but the five, every accepted configuration builds a client, and each
    attribute of the client is the setting of that name. *)
Theorem clean_settings_build_client (config_file : option string) (args : dict)
    (st : State) (self : Configurator) (file : dict) (oid : nat) :
  Configurator_init json_members config_file args st = Ok self ->
  file_source json_members config_file st = Ok file ->
  dom args ⊆ init_params ->
  dom file ⊆ init_params ->
  exists api : AppleAPI,
    AppleAPI_init oid (configuration self) = Ok api /\
    api_oid api = oid /\
    configuration self !! "api_base_url" = Some (api_base_url api) /\
    configuration self !! "jwt_expire_sec" = Some (jwt_expire_sec api) /\
    configuration self !! "issuer_id" = Some (issuer_id api) /\
    configuration self !! "key_id" = Some (key_id api) /\
    configuration self !! "privkey_path" = Some (privkey_path api).
Proof.
  intros Hinit Hfile Hargs Hfiledom.
  destruct (Configurator_init_accepts _ _ _ _ Hinit) as [Hmerge Hval].
  destruct (merge_sources_lookup_any _ _ _ _ Hmerge) as (file' & Hfile' & Hlookup).
  rewrite Hfile in Hfile'. injection Hfile' as <-.
  assert (Hdom : dom (configuration self) ⊆ init_params).
  { intros k Hin. apply elem_of_dom in Hin. unfold configuration in Hin.
    rewrite Hlookup in Hin.
    destruct (args !! k) eqn:Ha; [apply Hargs, elem_of_dom; eauto|].
    destruct (decide (k ∈ required_items)); [apply init_params_required; assumption|].
    destruct (file !! k) eqn:Hf; [apply Hfiledom, elem_of_dom; eauto|].
    apply init_params_required, builtin_defaults_required, Hin. }
  apply validate_inv in Hval. unfold required_items in Hval.
  repeat match goal with
         | H : Forall _ (_ :: _) |- _ => apply Forall_cons in H as [[? ?] H]
         end.
  unfold AppleAPI_init, configuration in *.
  rewrite bool_decide_eq_true_2 by exact Hdom.
  repeat match goal with
         | H : cf_config self !! _ = Some _ |- _ => rewrite H; clear H
         end.
  eexists. repeat split.
Qed.

(** X6 (resolver). Resolution reads the state through the files and through
    the five upper-cased variable names only: two states that agree on those
    resolve alike, whatever else their environments hold. *)
Theorem resolution_reads_five_variables (config_file : option string)
    (args : dict) (st st' : State) :
  files st = files st' ->
  (forall k : string,
     k ∈ required_items -> environ st !! upper k = environ st' !! upper k) ->
  Configurator_init json_members config_file args st =
  Configurator_init json_members config_file args st'.
Proof.
  intros Hfiles Henv.
  unfold Configurator_init, configure, merge_sources.
  change (cf_config_file (Configurator_new config_file args)) with config_file.
  assert (Hfile : match config_file with
                  | Some _ => configure_from_file json_members
                                (Configurator_new config_file args) st
                  | None => Ok (Configurator_new config_file args)
                  end =
                  match config_file with
                  | Some _ => configure_from_file json_members
                                (Configurator_new config_file args) st'
                  | None => Ok (Configurator_new config_file args)
                  end).
  { destruct config_file; [|reflexivity].
    unfold configure_from_file, read_file. rewrite Hfiles. reflexivity. }
  rewrite <- Hfile.
  destruct (match config_file with
            | Some _ => configure_from_file json_members (Configurator_new config_file args) st
            | None => Ok (Configurator_new config_file args)
            end) as [self1|e] eqn:Hstep; [|reflexivity].
  destruct (file_step json_members _ _ _ _ Hstep) as (_ & _ & _ & Hreq).
  simpl. unfold configure_from_env. rewrite Hreq.
  rewrite (env_pass_ext st st' required_items self1 Henv). reflexivity.
Qed.

End ResolverFurther.

Lemma first_missing_item_reported_witness :
  exists (before : list string) (k : string) (after : list string),
    required_items = before ++ k :: after /\
    Forall (fun i => is_Some (builtin_defaults !! i)) before /\
    builtin_defaults !! k = None /\
    KeyError "Missing configuration item: issuer_id" =
      KeyError ("Missing configuration item: " +:+ k).
Proof.
  apply (first_missing_item_reported demo_json None ∅ demo_state
           {| cf_config := builtin_defaults; cf_config_file := None;
              cf_required_items := required_items |}).
  - vm_compute. reflexivity.
  - vm_compute. reflexivity.
Defined.

Lemma only_undefaulted_items_missing_witness :
  exists k : string,
    k ∈ ["issuer_id"; "key_id"; "privkey_path"] /\
    builtin_defaults !! k = None /\
    KeyError "Missing configuration item: issuer_id" =
      KeyError ("Missing configuration item: " +:+ k).
Proof.
  apply (only_undefaulted_items_missing demo_json None ∅ demo_state
           {| cf_config := builtin_defaults; cf_config_file := None;
              cf_required_items := required_items |}).
  - vm_compute. reflexivity.
  - vm_compute. reflexivity.
Defined.

Lemma other_keys_bypass_environment_witness :
  exists self : Configurator,
    Configurator_init demo_json None stray_overrides demo_state = Ok self /\
    configuration self !! "out" = Some (VStr "report.tsv").
Proof.
  destruct (Configurator_init demo_json None stray_overrides demo_state)
    as [self|e] eqn:Hinit; [|vm_compute in Hinit; discriminate].
  exists self. split; [reflexivity|].
  rewrite (other_keys_bypass_environment demo_json None stray_overrides demo_state
             self ∅ "out" Hinit).
  - reflexivity.
  - reflexivity.
  - vm_compute. intros Hin. repeat (apply elem_of_cons in Hin as [[=]|Hin]).
    inversion Hin.
Defined.

Lemma stray_key_breaks_client_witness :
  exists self : Configurator,
    Configurator_init demo_json None stray_overrides demo_state = Ok self /\
    exists msg : string,
      AppleAPI_init 0 (configuration self) = Raise (TypeError msg).
Proof.
  destruct (Configurator_init demo_json None stray_overrides demo_state)
    as [self|e] eqn:Hinit; [|vm_compute in Hinit; discriminate].
  exists self. split; [reflexivity|].
  apply (stray_key_breaks_client demo_json None stray_overrides demo_state
           self ∅ "out" 0%nat Hinit).
  - reflexivity.
  - intros Hin. repeat (apply elem_of_cons in Hin as [[=]|Hin]). inversion Hin.
  - left. vm_compute. eauto.
Defined.

Lemma clean_settings_build_client_witness :
  exists self : Configurator,
    Configurator_init demo_json None full_overrides demo_state = Ok self /\
    AppleAPI_init 0 (configuration self) = Ok demo_api.
Proof.
  destruct (Configurator_init demo_json None full_overrides demo_state)
    as [self|e] eqn:Hinit; [|vm_compute in Hinit; discriminate].
  exists self. split; [reflexivity|].
  destruct (clean_settings_build_client demo_json None full_overrides demo_state
              self ∅ 0%nat Hinit) as (api & Hapi & _).
  - reflexivity.
  - apply (bool_decide_unpack (dom full_overrides ⊆ init_params)).
    vm_compute. exact I.
  - apply (bool_decide_unpack (dom (∅ : dict) ⊆ init_params)).
    vm_compute. exact I.
  - vm_compute in Hinit. injection Hinit as <-. vm_compute. reflexivity.
Defined.

Lemma resolution_reads_five_variables_witness :
  Configurator_init demo_json (Some "config.json") ∅ demo_state =
  Configurator_init demo_json (Some "config.json") ∅ demo_state_home.
Proof.
  apply (resolution_reads_five_variables demo_json (Some "config.json") ∅
           demo_state demo_state_home).
  - reflexivity.
  - intros k Hk. unfold required_items in Hk.
    repeat (apply elem_of_cons in Hk as [->|Hk]); try (vm_compute; reflexivity).
    inversion Hk.
Defined.

(** ** Token issuer and client, beyond the report request *)

Lemma dict_update_twice (d new : dict) :
  dict_update (dict_update d new) new = dict_update d new.
Proof.
  apply map_eq. intros k. rewrite !dict_update_lookup.
  destruct (new !! k); reflexivity.
Qed.

Section ClientFurther.

Variable jwt_encode : dict -> string -> string -> dict -> nat -> result string.

(** The report request, once the token is in hand, as one equation. *)
Lemma request_in_review_report_run (self : AppleAPI) (rptg_day : pyval)
    (st st1 : State) (tok : string) :
  generate_jwt_token jwt_encode self st = (Ok tok, st1) ->
  let rq := {| rq_method := GET;
               rq_url := py_str (api_base_url self)
                         +:+ "/reports/in-review/v1?rptg_date=" +:+ py_str rptg_day;
               rq_verify := true;
               rq_headers :=
                 Some (dict_update
                         (deref (heap st) send_signed_http_request_default_headers)
                         {[ "Authorization" := VStr ("Bearer " +:+ tok) ]}) |} in
  request_in_review_report jwt_encode self rptg_day st =
    (match server st rq with
     | Ok r => Ok (triple_of r)
     | Raise e => Raise e
     end,
     set_sent (sent st ++ [rq])
       (add_bearer send_signed_http_request_default_headers tok st1)).
Proof.
  intros Htok rq.
  pose proof (generate_jwt_token_frame _ _ _ _ _ Htok) as Hframe.
  assert (Hheap : heap st1 = heap st) by (rewrite Hframe; reflexivity).
  assert (Hsent : sent st1 = sent st) by (rewrite Hframe; reflexivity).
  assert (Hserver : server st1 = server st) by (rewrite Hframe; reflexivity).
  unfold request_in_review_report, bind at 1.
  rewrite (send_signed_http_request_unfold _ _ _ _ _ _ _ _ _ _ Htok),
    send_http_request_no_body.
  change (method_of_verb "get") with (Some GET). cbv zeta.
  unfold add_bearer at 1 2 3 4. simpl heap. simpl sent. simpl server.
  simpl fmap. rewrite deref_insert, Hheap, Hsent, Hserver.
  fold rq. unfold ret. destruct (server st rq); reflexivity.
Qed.

(** The report request when the issuer raises: that exception, and the
    state the issuer left. *)
Lemma request_in_review_report_no_token (self : AppleAPI) (rptg_day : pyval)
    (st st1 : State) (e : exn) :
  generate_jwt_token jwt_encode self st = (Raise e, st1) ->
  request_in_review_report jwt_encode self rptg_day st = (Raise e, st1).
Proof.
  intros Htok. unfold request_in_review_report, bind at 1.
  rewrite (send_signed_http_request_no_token _ _ _ _ _ _ _ _ _ _ Htok).
  reflexivity.
Qed.

(** A failed issuer call was a miss whose body raised. *)
Lemma generate_jwt_token_raise_inv (self : AppleAPI) (st st1 : State) (e : exn) :
  generate_jwt_token jwt_encode self st = (Raise e, st1) ->
  cached_for self st = None /\
  generate_jwt_token_body jwt_encode self st = (Raise e, st1).
Proof.
  destruct (cached_for self st) as [tok|] eqn:Hslot.
  - rewrite (generate_jwt_token_hit _ _ _ _ Hslot). discriminate.
  - rewrite (generate_jwt_token_miss _ _ _ Hslot).
    destruct (generate_jwt_token_body jwt_encode self st) as [[t|e'] st'];
      [discriminate|]. intros [= <- <-]. auto.
Qed.

(** X7 (issuer). An issuer call that raises stores nothing: the cache slot is
    as it was, it still holds no token for the instance, and so the next call
    on the instance runs the body again instead of repeating the failure. *)
Theorem failed_issue_not_cached (self : AppleAPI) (st st1 : State) (e : exn) :
  generate_jwt_token jwt_encode self st = (Raise e, st1) ->
  token_cache st1 = token_cache st /\
  cached_for self st1 = None /\
  forall later : State,
    token_cache later = token_cache st1 ->
    generate_jwt_token jwt_encode self later =
      match generate_jwt_token_body jwt_encode self later with
      | (Ok tok, st') => (Ok tok, set_token_cache (Some (api_oid self, tok)) st')
      | (Raise e', st') => (Raise e', st')
      end.
Proof.
  intros Hcall.
  destruct (generate_jwt_token_raise_inv _ _ _ _ Hcall) as [Hslot Hbody].
  assert (Hcache : token_cache st1 = token_cache st).
  { rewrite (generate_jwt_token_body_frame _ _ _ _ _ Hbody). reflexivity. }
  assert (Hslot1 : cached_for self st1 = None).
  { unfold cached_for in *. rewrite Hcache. exact Hslot. }
  repeat split; [exact Hcache|exact Hslot1|].
  intros later Hlater. apply generate_jwt_token_miss.
  unfold cached_for in *. rewrite Hlater. exact Hslot1.
Qed.

(** X8 (issuer). The cache has one slot for all instances: a call on another
    instance that returns takes the slot, and the next call on this instance
    runs the body again, whatever token it had been given before. *)
Theorem other_instance_evicts_token (self other : AppleAPI) (st st1 : State)
    (tok : string) :
  api_oid other <> api_oid self ->
  generate_jwt_token jwt_encode other st = (Ok tok, st1) ->
  cached_for self st1 = None /\
  generate_jwt_token jwt_encode self st1 =
    match generate_jwt_token_body jwt_encode self st1 with
    | (Ok tok', st') => (Ok tok', set_token_cache (Some (api_oid self, tok')) st')
    | (Raise e, st') => (Raise e, st')
    end.
Proof.
  intros Hne Hcall.
  assert (Hslot : cached_for self st1 = None).
  { unfold cached_for. rewrite (generate_jwt_token_stored _ _ _ _ _ Hcall).
    rewrite decide_False by exact Hne. reflexivity. }
  split; [exact Hslot|]. apply generate_jwt_token_miss, Hslot.
Qed.


(** With a body, the dispatch ends in an exception and the state is the
    one it started from. *)
Lemma send_http_request_body_raises (verb url body : string)
    (headers : option loc) (verify_ssl : bool) (st : State) :
  send_http_request verb url (Some body) headers verify_ssl st =
    (Raise (match method_of_verb verb with
            | Some _ =>
                TypeError "request() got an unexpected keyword argument 'body'"
            | None => ValueError "Invalid HTTP verb."
            end), st).
Proof.
  unfold send_http_request, method_of_verb, requests_call, bind, raise.
  destruct headers as [h|]; simpl;
    repeat (destruct (decide _); [reflexivity|]); reflexivity.
Qed.

(** X10 (client). A request with a body never reaches the network: the body
    is passed under a keyword the [requests] functions do not take, so with
    one of the six verbs the call raises a [TypeError], with any other verb
    the [ValueError] of the dispatch, and either way the state is
    untouched. *)
Theorem body_never_sent (verb url body : string) (headers : option loc)
    (verify_ssl : bool) (st : State) :
  exists e : exn,
    send_http_request verb url (Some body) headers verify_ssl st = (Raise e, st) /\
    match method_of_verb verb with
    | Some _ => exists msg : string, e = TypeError msg
    | None => e = ValueError "Invalid HTTP verb."
    end.
Proof.
  eexists. split; [apply send_http_request_body_raises|].
  destruct (method_of_verb verb); eauto.
Qed.

(** X11 (client). Verbs are matched as written, in lower case. A signed call
    with any other verb raises the [ValueError] and sends nothing, but only
    after the token has been issued and the caller's headers object
    updated. *)
Theorem unknown_verb_rejected_after_signing (self : AppleAPI)
    (verb url : string) (body : option string) (l : loc) (verify_ssl : bool)
    (st st1 : State) (tok : string) :
  generate_jwt_token jwt_encode self st = (Ok tok, st1) ->
  method_of_verb verb = None ->
  send_signed_http_request jwt_encode self verb url body (Some l) verify_ssl st =
    (Raise (ValueError "Invalid HTTP verb."), add_bearer l tok st1) /\
  sent (add_bearer l tok st1) = sent st /\
  deref (heap (add_bearer l tok st1)) l !! "Authorization" =
    Some (VStr ("Bearer " +:+ tok)).
Proof.
  intros Htok Hverb.
  pose proof (generate_jwt_token_frame _ _ _ _ _ Htok) as Hframe.
  rewrite (send_signed_http_request_unfold _ _ _ _ _ _ _ _ _ _ Htok).
  split; [|split].
  - destruct body as [b|].
    + rewrite send_http_request_body_raises, Hverb. reflexivity.
    + rewrite send_http_request_no_body, Hverb. reflexivity.
  - unfold add_bearer. simpl. rewrite Hframe. reflexivity.
  - unfold add_bearer. simpl heap.
    rewrite deref_insert, dict_update_lookup, lookup_singleton_eq. reflexivity.
Qed.

(** X12 (client). A second report request on the same instance finds the
    token in the cache and the [Authorization] entry already in the default
    headers object: it sends the same headers as the first and leaves the
    shared dictionaries exactly as the first left them. *)
Theorem repeated_requests_same_headers (self : AppleAPI) (day1 day2 : pyval)
    (st sta : State) (tok : string) :
  generate_jwt_token jwt_encode self st = (Ok tok, sta) ->
  let sent_headers :=
    dict_update (deref (heap st) send_signed_http_request_default_headers)
                {[ "Authorization" := VStr ("Bearer " +:+ tok) ]} in
  let st1 := snd (request_in_review_report jwt_encode self day1 st) in
  let st2 := snd (request_in_review_report jwt_encode self day2 st1) in
  heap st2 = heap st1 /\
  exists rq1 rq2 : Request,
    sent st2 = sent st ++ [rq1; rq2] /\
    rq_headers rq1 = Some sent_headers /\
    rq_headers rq2 = Some sent_headers.
Proof.
  intros Htok sent_headers st1 st2.
  pose proof (generate_jwt_token_frame _ _ _ _ _ Htok) as Hframe.
  assert (Hheap : heap sta = heap st) by (rewrite Hframe; reflexivity).
  pose proof (request_in_review_report_run self day1 st sta tok Htok) as Hrun1.
  cbv zeta in Hrun1.
  assert (Hst1 : st1 = set_sent (sent st ++ [ {| rq_method := GET;
                     rq_url := py_str (api_base_url self)
                               +:+ "/reports/in-review/v1?rptg_date=" +:+ py_str day1;
                     rq_verify := true; rq_headers := Some sent_headers |} ])
                   (add_bearer send_signed_http_request_default_headers tok sta)).
  { unfold st1. rewrite Hrun1. reflexivity. }
  assert (Hhit : generate_jwt_token jwt_encode self st1 = (Ok tok, st1)).
  { apply generate_jwt_token_hit. unfold cached_for. rewrite Hst1. simpl.
    rewrite (generate_jwt_token_stored _ _ _ _ _ Htok).
    rewrite decide_True by reflexivity. reflexivity. }
  assert (Hderef : deref (heap st1) send_signed_http_request_default_headers =
                   sent_headers).
  { rewrite Hst1. simpl. rewrite deref_insert, Hheap. reflexivity. }
  assert (Htwice : dict_update sent_headers
                     {[ "Authorization" := VStr ("Bearer " +:+ tok) ]} = sent_headers)
    by apply dict_update_twice.
  assert (Hheld : heap st1 !! send_signed_http_request_default_headers =
                  Some sent_headers).
  { rewrite Hst1. simpl. rewrite lookup_insert_eq, Hheap. reflexivity. }
  pose proof (request_in_review_report_run self day2 st1 st1 tok Hhit) as Hrun2.
  cbv zeta in Hrun2. rewrite Hderef, Htwice in Hrun2.
  unfold st2. rewrite Hrun2. split.
  - unfold add_bearer. simpl. rewrite Hderef, Htwice. apply insert_id, Hheld.
  - eexists _, _. split.
    + simpl. rewrite Hst1 at 1. simpl. rewrite <- app_assoc. reflexivity.
    + split; reflexivity.
Qed.

End ClientFurther.

Lemma failed_issue_not_cached_witness :
  cached_for demo_api (snd (generate_jwt_token demo_jwt demo_api demo_state_later)) = None.
Proof.
  destruct (failed_issue_not_cached demo_jwt demo_api demo_state_later
              (snd (generate_jwt_token demo_jwt demo_api demo_state_later))
              (OSError "No such file or directory: key.p8"))
    as (_ & Hslot & _).
  - vm_compute. reflexivity.
  - exact Hslot.
Defined.

Lemma other_instance_evicts_token_witness :
  cached_for demo_api (snd (generate_jwt_token demo_jwt other_api demo_state)) = None.
Proof.
  destruct (other_instance_evicts_token demo_jwt demo_api other_api demo_state
              (snd (generate_jwt_token demo_jwt other_api demo_state))
              "ES256.KEY2.issuer-1.1668039600.7")
    as (Hslot & _).
  - simpl. lia.
  - vm_compute. reflexivity.
  - exact Hslot.
Defined.

Lemma unknown_verb_rejected_after_signing_witness :
  fst (send_signed_http_request demo_jwt demo_api "GET"
         "https://musicanalytics.apple.com/" None
         (Some send_signed_http_request_default_headers) true demo_state) =
    Raise (ValueError "Invalid HTTP verb.").
Proof.
  destruct (unknown_verb_rejected_after_signing demo_jwt demo_api "GET"
              "https://musicanalytics.apple.com/" None
              send_signed_http_request_default_headers true demo_state
              (snd (generate_jwt_token demo_jwt demo_api demo_state)) demo_token)
    as (Hcall & _).
  - vm_compute. reflexivity.
  - reflexivity.
  - rewrite Hcall. reflexivity.
Defined.

Lemma repeated_requests_same_headers_witness :
  heap (snd (request_in_review_report demo_jwt demo_api (VStr "1999-01-01")
               (snd (request_in_review_report demo_jwt demo_api (VStr "2022-11-10")
                       demo_state)))) =
  heap (snd (request_in_review_report demo_jwt demo_api (VStr "2022-11-10") demo_state)).
Proof.
  destruct (repeated_requests_same_headers demo_jwt demo_api (VStr "2022-11-10")
              (VStr "1999-01-01") demo_state
              (snd (generate_jwt_token demo_jwt demo_api demo_state)) demo_token)
    as (Hheap & _).
  - vm_compute. reflexivity.
  - exact Hheap.
Defined.

(** ** Settings that reach the issuer *)

(** The attributes of a client are the keyword arguments it was built from. *)
Lemma AppleAPI_init_fields (oid : nat) (kwargs : dict) (api : AppleAPI) :
  AppleAPI_init oid kwargs = Ok api ->
  api_oid api = oid /\
  kwargs !! "api_base_url" = Some (api_base_url api) /\
  kwargs !! "jwt_expire_sec" = Some (jwt_expire_sec api) /\
  kwargs !! "issuer_id" = Some (issuer_id api) /\
  kwargs !! "key_id" = Some (key_id api) /\
  kwargs !! "privkey_path" = Some (privkey_path api).
Proof.
  unfold AppleAPI_init.
  destruct (bool_decide (dom kwargs ⊆ init_params)); [|discriminate].
  destruct (kwargs !! "privkey_path"); [|discriminate].
  destruct (kwargs !! "key_id"); [|discriminate].
  destruct (kwargs !! "issuer_id"); [|discriminate].
  destruct (kwargs !! "jwt_expire_sec"); [|discriminate].
  destruct (kwargs !! "api_base_url"); [|discriminate].
  intros [= <-]. simpl. repeat split.
Qed.

Section SettingsToIssuer.

Variable json_members : string -> result dict.
Variable jwt_encode : dict -> string -> string -> dict -> nat -> result string.

(** X13 (resolver into issuer). A token lifetime taken from the environment
    is a string, and the issuer adds it to a float: unless an override sets
    jwt_expire_sec, a client built from such a configuration can never issue
    a token. Every call that is not served from the cache raises a
    [TypeError], and the report request raises with it before anything is
    sent. *)
Theorem environment_lifetime_stops_issuer (config_file : option string)
    (args : dict) (st : State) (self : Configurator) (oid : nat)
    (api : AppleAPI) (s : string) :
  Configurator_init json_members config_file args st = Ok self ->
  args !! "jwt_expire_sec" = None ->
  environ st !! "JWT_EXPIRE_SEC" = Some s ->
  AppleAPI_init oid (configuration self) = Ok api ->
  forall (st' : State) (rptg_day : pyval),
    cached_for api st' = None ->
    let e := TypeError "unsupported operand type(s) for +: 'float' and 'str'" in
    generate_jwt_token jwt_encode api st' = (Raise e, st') /\
    request_in_review_report jwt_encode api rptg_day st' = (Raise e, st').
Proof.
  intros Hinit Hargs Henv Hapi st' rptg_day Hslot e.
  destruct (Configurator_init_accepts _ _ _ _ _ Hinit) as [Hmerge _].
  destruct (merge_sources_lookup_any _ _ _ _ _ Hmerge) as (file & _ & Hlookup).
  destruct (AppleAPI_init_fields _ _ _ Hapi) as (_ & _ & Hsec & _).
  unfold configuration in Hsec. rewrite Hlookup, Hargs in Hsec.
  rewrite decide_True in Hsec by (unfold required_items; set_solver).
  change (upper "jwt_expire_sec") with "JWT_EXPIRE_SEC" in Hsec.
  rewrite Henv in Hsec. injection Hsec as Hsec.
  assert (Hcall : generate_jwt_token jwt_encode api st' = (Raise e, st')).
  { rewrite (generate_jwt_token_miss _ _ _ Hslot), generate_jwt_token_body_unfold.
    unfold float_add. rewrite <- Hsec. reflexivity. }
  split; [exact Hcall|].
  apply request_in_review_report_no_token, Hcall.
Qed.

End SettingsToIssuer.

Lemma environment_lifetime_stops_issuer_witness :
  exists self : Configurator,
    Configurator_init demo_json (Some "config.json") ∅ demo_state_env_lifetime = Ok self /\
    request_in_review_report demo_jwt
      {| api_oid := 0; api_base_url := VStr "https://musicanalytics.apple.com";
         jwt_expire_sec := VStr "600"; issuer_id := VStr "issuer-1";
         key_id := VStr "KEY1"; privkey_path := VStr "key.p8" |}
      (VStr "2022-11-10") demo_state_env_lifetime =
      (Raise (TypeError "unsupported operand type(s) for +: 'float' and 'str'"),
       demo_state_env_lifetime).
Proof.
  destruct (Configurator_init demo_json (Some "config.json") ∅ demo_state_env_lifetime)
    as [self|e] eqn:Hinit; [|vm_compute in Hinit; discriminate].
  exists self. split; [reflexivity|].
  apply (environment_lifetime_stops_issuer demo_json demo_jwt (Some "config.json") ∅
           demo_state_env_lifetime self 0%nat _ "600" Hinit).
  - reflexivity.
  - reflexivity.
  - vm_compute in Hinit. injection Hinit as <-. vm_compute. reflexivity.
  - reflexivity.
Defined.

(** ** Report writer *)






(** ** Entry point, over every run *)

Lemma dict_update_onto_empty (new : dict) : dict_update ∅ new = new.
Proof. unfold dict_update. apply (right_id_L ∅ (∪)). Qed.

Section MainFurther.

Variable json_members : string -> result dict.
Variable jwt_encode : dict -> string -> string -> dict -> nat -> result string.
Variable api_object : nat.

(** The state a run ends in is the state its block ends in. *)
Lemma main_snd (args : Namespace) (st : State) :
  snd (main json_members jwt_encode api_object args st) =
  snd (main_block json_members jwt_encode api_object args (process_start st)).
Proof.
  unfold main.
  destruct (main_block json_members jwt_encode api_object args (process_start st))
    as [[u|e] st']; [reflexivity|]. destruct e; reflexivity.
Qed.


(** Every way the block can go once the operation is counted. Either it
    stops before the request, with nothing sent, written or printed; or the
    client was built, the token issued and exactly one request sent, after
    which the files are as before unless the answer had status 200 and its
    text was written under the report's name. *)
Lemma main_block_trace (args : Namespace) (st0 : State) :
  is_not_False (ns_get_in_review args) = true ->
  let run := main_block json_members jwt_encode api_object args st0 in
  let file_name := "in-review-" +:+ py_str (ns_get_in_review args) +:+ ".tsv" in
  (exists e : exn,
     fst run = Raise e /\ sent (snd run) = sent st0 /\
     files (snd run) = files st0 /\ stdout (snd run) = stdout st0) \/
  (exists (configurator : Configurator) (api : AppleAPI) (tok : string)
          (sta : State),
     Configurator_init json_members (Some (ns_config args)) ∅ st0 = Ok configurator /\
     AppleAPI_init api_object (configuration configurator) = Ok api /\
     generate_jwt_token jwt_encode api st0 = (Ok tok, sta) /\
     let rq := {| rq_method := GET;
                  rq_url := py_str (api_base_url api)
                            +:+ "/reports/in-review/v1?rptg_date="
                            +:+ py_str (ns_get_in_review args);
                  rq_verify := true;
                  rq_headers :=
                    Some (dict_update
                            (deref (heap st0) send_signed_http_request_default_headers)
                            {[ "Authorization" := VStr ("Bearer " +:+ tok) ]}) |} in
     sent (snd run) = sent st0 ++ [rq] /\
     stdout (snd run) = stdout st0 /\
     ((exists e : exn, fst run = Raise e /\ files (snd run) = files st0) \/
      (exists resp : Response,
         server st0 rq = Ok resp /\ status_code resp = 200 /\
         (file_name ∉ unwritable st0) /\
         fst run = Ok tt /\
         files (snd run) = <[ file_name := resp_text resp ]> (files st0)))).
Proof.
  intros Hop run file_name. unfold run.
  rewrite (main_block_one_operation json_members jwt_encode api_object args st0 Hop).
  destruct (Configurator_init json_members (Some (ns_config args)) ∅ st0)
    as [configurator|e] eqn:Hcfg; [|left; exists e; simpl; auto].
  destruct (AppleAPI_init api_object (configuration configurator))
    as [api|e] eqn:Hapi; [|left; exists e; simpl; auto].
  destruct (generate_jwt_token jwt_encode api st0) as [[tok|e] sta] eqn:Htok.
  - pose proof (generate_jwt_token_frame _ _ _ _ _ Htok) as Hframe.
    assert (Hfiles : files sta = files st0) by (rewrite Hframe; reflexivity).
    assert (Hunw : unwritable sta = unwritable st0) by (rewrite Hframe; reflexivity).
    assert (Hout : stdout sta = stdout st0) by (rewrite Hframe; reflexivity).
    right. exists configurator, api, tok, sta.
    split; [reflexivity|]. split; [exact Hapi|]. split; [exact Htok|].
    rewrite (request_in_review_report_run jwt_encode api (ns_get_in_review args)
               st0 sta tok Htok).
    cbv zeta. set (rq := {| rq_method := GET; rq_url := _; rq_verify := true;
                            rq_headers := _ |}).
    destruct (server st0 rq) as [resp|e] eqn:Hanswer.
    + change ((triple_of resp).1.1) with (status_code resp).
      change ((triple_of resp).2) with (resp_text resp).
      destruct (status_code resp =? 200)%Z eqn:Hcode.
      * unfold write_in_review_report, write_file. fold file_name.
        simpl unwritable. rewrite Hunw.
        destruct (bool_decide (file_name ∈ unwritable st0)) eqn:Hw.
        -- simpl. rewrite Hfiles, Hout. repeat split. left. eauto.
        -- simpl. rewrite Hfiles, Hout. repeat split. right. exists resp.
           apply Z.eqb_eq in Hcode. apply bool_decide_eq_false_1 in Hw.
           repeat split; auto.
      * simpl. rewrite Hfiles, Hout. repeat split. left. eauto.
    + simpl. rewrite Hfiles, Hout. repeat split. left. eauto.
  - pose proof (generate_jwt_token_frame _ _ _ _ _ Htok) as Hframe.
    rewrite (request_in_review_report_no_token jwt_encode api (ns_get_in_review args)
               st0 sta e Htok).
    left. exists e. simpl. rewrite Hframe. simpl. auto.
Qed.

(** The option holds [False] or it does not. *)
Lemma is_not_False_cases (v : pyval) :
  v = VBool false \/ is_not_False v = true.
Proof. destruct v as [|[]| |]; auto. Qed.

(** X15 (entry point). The configuration file is always opened, since
    [--config] has a default: when the file it names does not exist the run
    ends in the [OSError] of the failed [open], before any request, even if
    the environment provides every setting. *)
Theorem missing_config_file_is_fatal (args : Namespace) (st : State) :
  is_not_False (ns_get_in_review args) = true ->
  files st !! ns_config args = None ->
  exists msg : string,
    main json_members jwt_encode api_object args st =
      (Traceback (OSError msg), process_start st).
Proof.
  intros Hop Hmissing. unfold main.
  rewrite (main_block_one_operation json_members jwt_encode api_object args _ Hop).
  unfold Configurator_init, configure, merge_sources, configure_from_file, read_file.
  simpl. rewrite Hmissing. eexists. reflexivity.
Qed.


(** X17 (entry point). Whatever the command line and the state, a run sends
    at most one request, and if it sends one it is a GET for the in-review
    report of the day on the command line, with certificate verification on
    and [Authorization: Bearer <token>] as its only header. *)
Theorem at_most_one_request (args : Namespace) (st : State) :
  let log := sent (snd (main json_members jwt_encode api_object args st)) in
  (length log <= 1)%nat /\
  Forall (fun rq =>
            rq_method rq = GET /\ rq_verify rq = true /\
            (exists base : string,
               rq_url rq = base +:+ "/reports/in-review/v1?rptg_date="
                           +:+ py_str (ns_get_in_review args)) /\
            (exists tok : string,
               rq_headers rq =
                 Some {[ "Authorization" := VStr ("Bearer " +:+ tok) ]}))
         log.
Proof.
  cbv zeta.
  destruct (is_not_False_cases (ns_get_in_review args)) as [Hflag|Hop].
  - rewrite (usage_exit_on_False json_members jwt_encode api_object args st Hflag).
    simpl. split; [lia|constructor].
  - pose proof (main_block_trace args (process_start st) Hop) as Htrace.
    cbv zeta in Htrace. rewrite main_snd.
    destruct Htrace as [(e & _ & Hsent & _)|
                        (configurator & api & tok & sta & _ & _ & _ & Hsent & _)].
    + rewrite Hsent. simpl. split; [lia|constructor].
    + rewrite Hsent. simpl. split; [lia|].
      constructor; [|constructor]. simpl.
      split; [reflexivity|]. split; [reflexivity|]. split; [eauto|].
      exists tok. unfold deref. rewrite lookup_empty. simpl.
      rewrite dict_update_onto_empty. reflexivity.
Qed.

(** X18 (entry point). For every value argparse can leave in the option,
    absent or given, the run prints nothing: the usage message cannot
    appear. *)
Theorem usage_never_printed (args : Namespace) (st : State) :
  is_not_False (ns_get_in_review args) = true ->
  stdout (snd (main json_members jwt_encode api_object args st)) = [].
Proof.
  intros Hop.
  pose proof (main_block_trace args (process_start st) Hop) as Htrace.
  cbv zeta in Htrace. rewrite main_snd.
  destruct Htrace as [(e & _ & _ & _ & Hout)|
                      (configurator & api & tok & sta & _ & _ & _ & _ & Hout & _)];
    rewrite Hout; reflexivity.
Qed.

(** X19 (entry point). When the answer has status 200 but the report's file
    cannot be opened for writing, the run ends in the [OSError] of the failed
    [open]: the request has been sent, and no file has changed. *)
Theorem write_failure_after_download (args : Namespace) (st st2 : State)
    (configurator : Configurator) (api : AppleAPI)
    (hdrs : list (string * string)) (body : string) :
  is_not_False (ns_get_in_review args) = true ->
  Configurator_init json_members (Some (ns_config args)) ∅ (process_start st) =
    Ok configurator ->
  AppleAPI_init api_object (configuration configurator) = Ok api ->
  request_in_review_report jwt_encode api (ns_get_in_review args) (process_start st) =
    (Ok (200, hdrs, body), st2) ->
  "in-review-" +:+ py_str (ns_get_in_review args) +:+ ".tsv" ∈ unwritable st ->
  let run := main json_members jwt_encode api_object args st in
  (exists msg : string, fst run = Traceback (OSError msg)) /\
  snd run = st2 /\ files st2 = files st.
Proof.
  intros Hop Hcfg Hapi Hreq Hprotected run.
  destruct (request_in_review_report_disk jwt_encode api (ns_get_in_review args)
              (process_start st)) as [Hfiles Hunw].
  rewrite Hreq in Hfiles, Hunw. simpl in Hfiles, Hunw.
  unfold run, main.
  rewrite (main_block_one_operation json_members jwt_encode api_object args _ Hop),
    Hcfg, Hapi, Hreq.
  simpl. unfold write_in_review_report, write_file.
  rewrite bool_decide_eq_true_2 by (rewrite Hunw; exact Hprotected).
  simpl. repeat split; eauto.
Qed.

End MainFurther.

Lemma missing_config_file_is_fatal_witness :
  exists msg : string,
    main demo_json demo_jwt 0 (get_in_review "2022-11-10") demo_state_env_only =
      (Traceback (OSError msg), process_start demo_state_env_only).
Proof.
  apply (missing_config_file_is_fatal demo_json demo_jwt 0%nat
           (get_in_review "2022-11-10") demo_state_env_only).
  - reflexivity.
  - vm_compute. reflexivity.
Defined.

Lemma usage_never_printed_witness :
  stdout (snd (main demo_json demo_jwt 0 no_flags demo_state)) = [].
Proof.
  apply (usage_never_printed demo_json demo_jwt 0%nat no_flags demo_state).
  reflexivity.
Defined.

Lemma write_failure_after_download_witness :
  (exists msg : string,
     fst (main demo_json demo_jwt 0 (get_in_review "2022-11-10") demo_state_protected) =
       Traceback (OSError msg)) /\
  files (snd (main demo_json demo_jwt 0 (get_in_review "2022-11-10")
                demo_state_protected)) = files demo_state_protected.
Proof.
  destruct (Configurator_init demo_json (Some "config.json") ∅
              (process_start demo_state_protected))
    as [configurator|e] eqn:Hcfg; [|vm_compute in Hcfg; discriminate].
  destruct (write_failure_after_download demo_json demo_jwt 0%nat
              (get_in_review "2022-11-10") demo_state_protected
              (snd (request_in_review_report demo_jwt demo_api (VStr "2022-11-10")
                      (process_start demo_state_protected)))
              configurator demo_api
              [("Content-Type", "text/tab-separated-values")] demo_report)
    as (Herr & Hsnd & Hfiles).
  - reflexivity.
  - exact Hcfg.
  - vm_compute in Hcfg. injection Hcfg as <-. vm_compute. reflexivity.
  - vm_compute. reflexivity.
  - simpl. apply elem_of_singleton. reflexivity.
  - split; [exact Herr|]. rewrite Hsnd. exact Hfiles.
Defined.
